(** * Cost forecasting engine: a shallow embedding of
      [optimizers/forecasting/forecaster.py] and of the statistics of
      [optimizers/forecasting/analyzer.py] that the forecast consumes.

    Numbers.  The Python code computes with IEEE doubles.  Finite values are
    embedded as exact rationals [Q] (no rounding error); the three special
    values that a division by zero produces in numpy (it warns, it does not
    raise) are kept apart in [npfloat].  Signed zeros are not modelled.

    Library code.  [StandardScaler], [train_test_split] and
    [RandomForestRegressor] are scikit-learn, not code of this repository:
    they enter as the operations of the class [Sklearn]. *)

From Stdlib Require Import ZArith QArith Qround Lia Lqa.
From Stdlib Require OrderedTypeEx.
From Stdlib Require Import Sorted.
From stdpp Require Import base option list gmap strings.

Local Open Scope Z_scope.

(** ** numpy scalars *)

Module NpFloat.

Inductive npfloat : Type :=
| Fin (q : Q)
| PInf
| NInf
| NaN.

Definition is_finite (x : npfloat) : bool :=
  match x with Fin _ => true | _ => false end.

Definition is_nan (x : npfloat) : bool :=
  match x with NaN => true | _ => false end.

(** Sign of a rational: -1, 0 or 1. *)
Definition Qsgn (q : Q) : Z := Z.sgn (Qnum q).

Definition signed_inf (s : Z) : npfloat :=
  if s =? 0 then NaN else if 0 <? s then PInf else NInf.

Definition fsgn (x : npfloat) : Z :=
  match x with Fin q => Qsgn q | PInf => 1 | NInf => -1 | NaN => 0 end.

(** [x / y] on float64: a zero divisor gives [nan] for [0/0] and an
    infinity of the sign of the dividend otherwise. *)
Definition np_div (x y : npfloat) : npfloat :=
  match x, y with
  | NaN, _ | _, NaN => NaN
  | Fin a, Fin b =>
      if Qeq_bool b 0 then signed_inf (Qsgn a) else Fin (a / b)
  | Fin _, _ => Fin 0
  | _, Fin b => signed_inf (fsgn x * (if Qeq_bool b 0 then 1 else Qsgn b))
  | _, _ => NaN
  end.

Definition np_mul (x y : npfloat) : npfloat :=
  match x, y with
  | NaN, _ | _, NaN => NaN
  | Fin a, Fin b => Fin (a * b)
  | _, _ => signed_inf (fsgn x * fsgn y)
  end.

Definition np_add (x y : npfloat) : npfloat :=
  match x, y with
  | NaN, _ | _, NaN => NaN
  | Fin a, Fin b => Fin (a + b)
  | PInf, NInf | NInf, PInf => NaN
  | PInf, _ | _, PInf => PInf
  | NInf, _ | _, NInf => NInf
  end.

(** Round half to even, the rule of [round] and of [numpy.round]. *)
Definition round_half_even (x : Q) : Z :=
  let f := Qfloor x in
  let r := (x - inject_Z f)%Q in
  match Qcompare r (1 # 2) with
  | Lt => f
  | Gt => f + 1
  | Eq => if Z.even f then f else f + 1
  end.

(** [round(x, 2)] *)
Definition round2 (x : Q) : Q :=
  (inject_Z (round_half_even (x * 100)) / 100)%Q.

Definition np_round2 (x : npfloat) : npfloat :=
  match x with Fin q => Fin (round2 q) | _ => x end.

(** [Series.sum()]: pandas skips [nan] entries ([skipna=True]). *)
Definition pd_sum (l : list npfloat) : npfloat :=
  fold_left np_add (filter (fun x => is_nan x = false) l) (Fin 0).

(** Sum of finite values. *)
Definition Qsum (l : list Q) : Q := fold_left Qplus l 0%Q.

(** [numpy.mean] of a non-empty sequence (every call site of the
    forecaster that uses the result passes one). *)
Definition np_mean (l : list Q) : Q :=
  (Qsum l / inject_Z (Z.of_nat (length l)))%Q.

End NpFloat.
Export NpFloat.

(** ** Calendar dates *)

Module Calendar.

Record Date : Type := mkDate { year : Z; month : Z; day : Z }.

#[export] Instance Date_eq_dec : EqDecision Date.
Proof. solve_decision. Defined.

Definition is_leap (y : Z) : bool :=
  (y mod 4 =? 0) && (negb (y mod 100 =? 0) || (y mod 400 =? 0)).

Definition days_in_month (y m : Z) : Z :=
  if m =? 2 then (if is_leap y then 29 else 28)
  else if (m =? 4) || (m =? 6) || (m =? 9) || (m =? 11) then 30
  else 31.

(** Months since year 0: the calendar month a date falls in. *)
Definition month_index (d : Date) : Z := year d * 12 + (month d - 1).

(** [Timestamp.quarter] *)
Definition quarter (d : Date) : Z := (month d - 1) / 3 + 1.

(** Label of a monthly bin of [resample('M')]: the last day of the month. *)
Definition month_end (k : Z) : Date :=
  let y := k / 12 in
  let m := k mod 12 + 1 in
  mkDate y m (days_in_month y m).

(** [d + pd.DateOffset(months=n)]: the month moves by [n], the day is
    clipped to the length of the target month. *)
Definition add_months (d : Date) (n : Z) : Date :=
  let k := month_index d + n in
  let y := k / 12 in
  let m := k mod 12 + 1 in
  mkDate y m (Z.min (day d) (days_in_month y m)).

End Calendar.
Export Calendar.

(** ** Input records and the monthly frame *)

(** One entry of [historical_data] (the [tags] mapping is not read by the
    forecasting code and is left out). *)
Record Observation : Type := mkObservation {
  date : Date;
  cost : Q;
  resource_type : string;
  resource_group : string
}.

(** The frame returned by [_prepare_data]: columns [date] and [cost]. *)
Definition MonthlyFrame : Type := list (Date * Q).

Definition frame_dates (df : MonthlyFrame) : list Date := map fst df.
Definition frame_costs (df : MonthlyFrame) : list Q := map snd df.

(** Sum of the costs observed in calendar month [k]. *)
Definition month_total (h : list Observation) (k : Z) : Q :=
  Qsum (map cost (filter (fun o => month_index (date o) = k) h)).

Definition first_month (h : list Observation) : Z :=
  match h with
  | [] => 0
  | o :: r => fold_right Z.min (month_index (date o)) (map (fun x => month_index (date x)) r)
  end.

Definition last_month (h : list Observation) : Z :=
  match h with
  | [] => 0
  | o :: r => fold_right Z.max (month_index (date o)) (map (fun x => month_index (date x)) r)
  end.

(** [CostForecaster._prepare_data]: [resample('M')['cost'].sum()] makes one
    row per calendar month from the first observed month to the last one,
    empty months included with sum 0.  An empty input has no [date] column:
    the [KeyError] is caught and the empty frame returned. *)
Definition _prepare_data (h : list Observation) : MonthlyFrame :=
  match h with
  | [] => []
  | _ :: _ =>
      let lo := first_month h in
      let hi := last_month h in
      map (fun k => (month_end k, month_total h k)) (seqZ lo (hi - lo + 1))
  end.

(** ** Feature construction *)

(** Body of the loop of [_create_features] at index [i]; [None] stands for
    an [IndexError] of [iloc]. *)
Definition feature_row (df : MonthlyFrame) (i : nat) : option (list Q * Q) :=
  c0 ← frame_costs df !! i;
  c1 ← frame_costs df !! (i + 1)%nat;
  c2 ← frame_costs df !! (i + 2)%nat;
  d ← frame_dates df !! i;
  t ← frame_costs df !! (i + 3)%nat;
  Some ([c0; c1; c2; inject_Z (month d); inject_Z (quarter d)], t).

(** [CostForecaster._create_features]: returns [(X, y)]; the [except]
    branch returns two empty arrays. *)
Definition _create_features (df : MonthlyFrame) : list (list Q) * list Q :=
  match mapM (feature_row df) (seq 0 (length df - 3)) with
  | Some rows => (map fst rows, map snd rows)
  | None => ([], [])
  end.

(** ** scikit-learn as an interface *)

(** [scaler_fit] is [StandardScaler.fit] (total on a non-empty matrix of
    finite numbers), [scaler_transform] is [transform] on one row.
    [model_fit] is [train_test_split(.., test_size=0.2, random_state=42)]
    followed by [RandomForestRegressor(n_estimators=100, max_depth=10,
    random_state=42).fit]: both seeds are fixed integers, so the fitted
    model is a function of the training data; [None] stands for a raised
    exception (the split refuses a sample that leaves no training row).
    [model_predict] is [predict] on one row. *)
Class Sklearn : Type := {
  Scaler : Type;
  Model : Type;
  scaler_fit : list (list Q) -> Scaler;
  scaler_transform : Scaler -> list Q -> list Q;
  model_fit : list (list Q) -> list Q -> option Model;
  model_predict : Model -> list Q -> Q
}.

(** ** The analysis dictionary read by the forecaster *)

(** Keys of a Python dictionary: calendar numbers or field names. *)
Inductive Key : Type :=
| KInt (z : Z)
| KStr (s : string).

#[export] Instance Key_eq_dec : EqDecision Key.
Proof. solve_decision. Defined.

#[export] Instance Key_countable : Countable Key.
Proof.
  refine (inj_countable'
            (fun k => match k with KInt z => inl z | KStr s => inr s end)
            (fun s => match s with inl z => KInt z | inr s => KStr s end) _).
  by intros [].
Defined.

(** [analysis['seasonality']]: the entries [monthly] and [quarterly] when
    present, each a dictionary with numeric values. *)
Record SeasonalPatterns : Type := mkSeasonalPatterns {
  monthly : option (gmap Key Q);
  quarterly : option (gmap Key Q)
}.

(** The part of [analysis] that [generate_forecast] reads. *)
Record Analysis : Type := mkAnalysis {
  seasonality : option SeasonalPatterns
}.

(** ** Forecast records *)

(** [{'date': ..., 'forecast': ...}]; the date string [%Y-%m-%d] is kept as
    the date it prints (and that [strptime] reads back). *)
Record Forecast : Type := mkForecast {
  fdate : Date;
  forecast : Q
}.

(** [{'date': ..., 'lower': ..., 'upper': ...}] *)
Record Interval : Type := mkInterval {
  idate : Date;
  lower : Q;
  upper : Q
}.

Record UncertaintyMetrics : Type := mkUncertaintyMetrics {
  average_range : Q;
  range_trend : string;
  relative_uncertainty : npfloat
}.

(** [uncertainty_metrics] is keyed by [str(level)]; the level itself is
    kept as the key. *)
Record Metrics : Type := mkMetrics {
  total_forecast : Q;
  average_monthly_forecast : Q;
  forecast_trend : string;
  forecast_growth : npfloat;
  uncertainty_metrics : list (Q * UncertaintyMetrics)
}.

(** The dictionary returned by [_generate_predictions]; [metrics = None] is
    the empty dictionary of the [except] branch of
    [_calculate_forecast_metrics].  [confidence_intervals] keeps the
    insertion order of its keys, the levels. *)
Record ForecastResult : Type := mkForecastResult {
  forecasts : list Forecast;
  confidence_intervals : list (Q * list Interval);
  metrics : option Metrics
}.

(** ** numpy helpers of the prediction loop *)

Fixpoint insert_sorted (x : Q) (l : list Q) : list Q :=
  match l with
  | [] => [x]
  | y :: r => if Qle_bool x y then x :: l else y :: insert_sorted x r
  end.

Definition np_sort (l : list Q) : list Q := fold_right insert_sorted [] l.

(** [numpy.percentile(a, q)] with the default linear interpolation: the
    value at the virtual index [(n-1) q / 100] of the sorted sample.  A [q]
    outside [0, 100] raises. *)
Definition np_percentile (a : list Q) (q : Q) : option Q :=
  if Qle_bool 0 q && Qle_bool q 100 then
    let s := np_sort a in
    let n := Z.of_nat (length a) in
    let h := (inject_Z (n - 1) * q / 100)%Q in
    let lo := Qfloor h in
    let hi := Z.min (lo + 1) (n - 1) in
    x ← s !! Z.to_nat lo;
    y ← s !! Z.to_nat hi;
    Some (x + (h - inject_Z lo) * (y - x))%Q
  else None.

(** [numpy.roll(a, -1)] *)
Definition np_roll_left (a : list Q) : list Q :=
  match a with
  | [] => []
  | x :: r => r ++ [x]
  end.

(** [a[-1] = v] on a non-empty array. *)
Definition set_last (a : list Q) (v : Q) : list Q :=
  <[(length a - 1)%nat := v]> a.

(** [series.iloc[-3:]] *)
Definition iloc_last3 (l : list Q) : list Q := drop (length l - 3) l.

(** ** CostForecaster *)

Module CostForecaster.
Section WithSklearn.

Context `{SK : Sklearn}.

(** The two attributes of the object that calls mutate; [None] is an
    estimator that was never fitted. *)
Record t : Type := mk {
  scaler : option Scaler;
  model : option Model
}.

(** [__init__] *)
Definition init : t := {| scaler := None; model := None |}.

Definition confidence_levels : list Q := [95 # 100; 80 # 100; 50 # 100]%Q.
Definition forecast_periods : nat := 12.

(** [_train_model]: the scaler is fitted first; when the split or the fit
    raises, the exception is logged and the model attribute keeps what it
    held. *)
Definition _train_model (self : t) (X : list (list Q)) (y : list Q) : t :=
  let sc := scaler_fit X in
  let X_scaled := map (scaler_transform sc) X in
  match model_fit X_scaled y with
  | Some m => {| scaler := Some sc; model := Some m |}
  | None => {| scaler := Some sc; model := model self |}
  end.

(** State of the loop of [_generate_predictions]. *)
Record LoopState : Type := mkLoopState {
  last_costs : list Q;
  acc_forecasts : list Forecast;
  acc_intervals : list (Q * list Interval)
}.

(** [confidence_intervals[level].append(e)] *)
Definition ci_append (level : Q) (e : Interval)
    (ci : list (Q * list Interval)) : list (Q * list Interval) :=
  map (fun kv => if Qeq_bool (fst kv) level then (fst kv, snd kv ++ [e]) else kv) ci.

(** [confidence_intervals[level]] *)
Fixpoint ci_lookup (level : Q) (ci : list (Q * list Interval))
    : option (list Interval) :=
  match ci with
  | [] => None
  | kv :: r => if Qeq_bool (fst kv) level then Some (snd kv) else ci_lookup level r
  end.

(** The two percentiles of one level. *)
Definition level_interval (predictions : list Q) (next_date : Date)
    (level : Q) : option Interval :=
  lo ← np_percentile predictions ((100 - level * 100) / 2)%Q;
  hi ← np_percentile predictions (50 + level * 100 / 2)%Q;
  Some {| idate := next_date; lower := lo; upper := hi |}.

(** [for level in self.confidence_levels: ...] *)
Fixpoint add_intervals (predictions : list Q) (next_date : Date)
    (levels : list Q) (ci : list (Q * list Interval))
    : option (list (Q * list Interval)) :=
  match levels with
  | [] => Some ci
  | level :: r =>
      iv ← level_interval predictions next_date level;
      add_intervals predictions next_date r (ci_append level iv ci)
  end.

(** The feature vector of one future month. *)
Definition feature_vector (w : list Q) (next_date : Date) : option (list Q) :=
  c0 ← w !! 0%nat;
  c1 ← w !! 1%nat;
  c2 ← w !! 2%nat;
  Some [c0; c1; c2; inject_Z (month next_date); inject_Z (quarter next_date)].

(** [for _ in range(100): predictions.append(self.model.predict(v)[0])] *)
Definition bootstrap_predictions (m : Model) (v : list Q) : list Q :=
  map (fun _ => model_predict m v) (seq 0 100).

(** One iteration of the loop over future months. *)
Definition predict_iter (sc : Scaler) (m : Model) (last_date : Date)
    (i : nat) (st : LoopState) : option LoopState :=
  let next_date := add_months last_date (Z.of_nat i + 1) in
  fv ← feature_vector (last_costs st) next_date;
  let feature_vector_scaled := scaler_transform sc fv in
  let predictions := bootstrap_predictions m feature_vector_scaled in
  let mean_pred := np_mean predictions in
  let fs := acc_forecasts st ++ [{| fdate := next_date; forecast := mean_pred |}] in
  let w := set_last (np_roll_left (last_costs st)) mean_pred in
  ci ← add_intervals predictions next_date confidence_levels (acc_intervals st);
  Some {| last_costs := w; acc_forecasts := fs; acc_intervals := ci |}.

(** [for i in range(n)], started at index [i]. *)
Fixpoint predict_loop (sc : Scaler) (m : Model) (last_date : Date)
    (n i : nat) (st : LoopState) : option LoopState :=
  match n with
  | O => Some st
  | S k =>
      st' ← predict_iter sc m last_date i st;
      predict_loop sc m last_date k (S i) st'
  end.

(** ** Seasonal adjustment *)

(** How the body of a loop ended: normally, or by a raised exception
    after the mutations made so far. *)
Inductive Outcome (A : Type) : Type :=
| Done (a : A)
| Raised (a : A).
Arguments Done {A} a.
Arguments Raised {A} a.

Definition adjust_monthly (sp : SeasonalPatterns) (f : Forecast) : Forecast :=
  match monthly sp with
  | Some month_pattern =>
      match month_pattern !! KInt (month (fdate f)) with
      | Some x => {| fdate := fdate f; forecast := forecast f * (1 + x) |}
      | None => f
      end
  | None => f
  end.

(** Body of the loop of [_apply_seasonal_adjustments].  [date] is a
    [datetime.datetime], which has no attribute [quarter]: when the key
    [quarterly] is present, evaluating [date.quarter] raises
    [AttributeError]. *)
Definition adjust_one (sp : SeasonalPatterns) (f : Forecast) : Outcome Forecast :=
  let f1 := adjust_monthly sp f in
  match quarterly sp with
  | Some _ => Raised f1
  | None => Done f1
  end.

(** The loop mutates the dictionaries of the list in place; a raised
    exception ends it and leaves the remaining entries as they were. *)
Fixpoint adjust_all (sp : SeasonalPatterns) (fs : list Forecast) : list Forecast :=
  match fs with
  | [] => []
  | f :: r =>
      match adjust_one sp f with
      | Done f' => f' :: adjust_all sp r
      | Raised f' => f' :: r
      end
  end.

(** [_apply_seasonal_adjustments]: the list after the call. *)
Definition _apply_seasonal_adjustments (fs : list Forecast) (analysis : Analysis)
    : list Forecast :=
  match seasonality analysis with
  | Some seasonal_patterns => adjust_all seasonal_patterns fs
  | None => fs
  end.

(** ** Forecast metrics *)

Definition Qgtb (x y : Q) : bool := negb (Qle_bool x y).

Definition trend_of (last first : Q) : string :=
  if Qgtb last first then "increasing"%string else "decreasing"%string.

Definition level_metrics (forecast_values : list Q)
    (ci : list (Q * list Interval)) (level : Q)
    : option (Q * UncertaintyMetrics) :=
  intervals ← ci_lookup level ci;
  let uncertainty_ranges := map (fun i => upper i - lower i)%Q intervals in
  r_last ← last uncertainty_ranges;
  r_first ← head uncertainty_ranges;
  Some (level,
        {| average_range := np_mean uncertainty_ranges;
           range_trend := trend_of r_last r_first;
           relative_uncertainty :=
             np_div (Fin (np_mean uncertainty_ranges))
                    (Fin (np_mean forecast_values)) |}).

(** [_calculate_forecast_metrics]; [None] is the [{}] of the [except]
    branch (an empty list has no first or last element). *)
Definition _calculate_forecast_metrics (fs : list Forecast)
    (ci : list (Q * list Interval)) : option Metrics :=
  let forecast_values := map forecast fs in
  v_last ← last forecast_values;
  v_first ← head forecast_values;
  um ← mapM (level_metrics forecast_values ci) confidence_levels;
  Some {| total_forecast := Qsum forecast_values;
          average_monthly_forecast := np_mean forecast_values;
          forecast_trend := trend_of v_last v_first;
          forecast_growth := np_div (Fin (v_last - v_first)) (Fin v_first);
          uncertainty_metrics := um |}.

(** ** Prediction and the entry point *)

Definition initial_state (df : MonthlyFrame) : LoopState :=
  {| last_costs := iloc_last3 (frame_costs df);
     acc_forecasts := [];
     acc_intervals := map (fun level => (level, [])) confidence_levels |}.

(** The loop of [_generate_predictions] alone: forecasts and intervals
    before any seasonal adjustment. *)
Definition raw_predictions (self : t) (df : MonthlyFrame) : option LoopState :=
  last_date ← last (frame_dates df);
  sc ← scaler self;
  m ← model self;
  predict_loop sc m last_date forecast_periods 0 (initial_state df).

(** [_generate_predictions]; [None] is the [None] of its [except]
    branch (an estimator that is not fitted raises). *)
Definition _generate_predictions (self : t) (df : MonthlyFrame)
    (analysis : Analysis) : option ForecastResult :=
  st ← raw_predictions self df;
  let fs := _apply_seasonal_adjustments (acc_forecasts st) analysis in
  Some {| forecasts := fs;
          confidence_intervals := acc_intervals st;
          metrics := _calculate_forecast_metrics fs (acc_intervals st) |}.

(** [generate_forecast]: the object after the call and the value
    returned. *)
Definition generate_forecast (self : t) (historical_data : list Observation)
    (analysis : Analysis) : t * option ForecastResult :=
  let df := _prepare_data historical_data in
  match df with
  | [] => (self, None)
  | _ :: _ =>
      let '(X, y) := _create_features df in
      if (length X =? 0)%nat then (self, None)
      else
        let self' := _train_model self X y in
        (self', _generate_predictions self' df analysis)
  end.

End WithSklearn.
Arguments Done {A} a.
Arguments Raised {A} a.
End CostForecaster.

(** ** CostForecastAnalyzer: seasonality and cost drivers *)

Module CostForecastAnalyzer.

(** [self.min_historical_months], set by [__init__]. *)
Definition min_historical_months : nat := 6.

(** *** Monthly seasonality *)

Section Seasonality.

(** The square root of float64, a function from finite values to finite
    values. *)
Variable np_sqrt : Q -> Q.

(** [Series.std()]: the sample standard deviation ([ddof=1]), [nan] for
    fewer than two values. *)
Definition pd_std (l : list Q) : npfloat :=
  match l with
  | [] | [_] => NaN
  | _ =>
      let mu := np_mean l in
      let ss := Qsum (map (fun x => (x - mu) * (x - mu))%Q l) in
      Fin (np_sqrt (ss / inject_Z (Z.of_nat (length l) - 1))%Q)
  end.

(** [monthly_data.groupby(monthly_data.index.month).mean()]: one entry
    per calendar month number that occurs, in increasing order. *)
Definition groupby_month_mean (monthly_data : MonthlyFrame) : list (Z * Q) :=
  omap (fun m =>
          match map snd (filter (fun r => month (fst r) = m) monthly_data) with
          | [] => None
          | g => Some (m, np_mean g)
          end)
       (seqZ 1 12).

(** [Series.idxmax()] and [Series.idxmin()]: the label of the first
    extreme value; an empty series raises. *)
Definition idxmax (s : list (Z * Q)) : option Z :=
  match s with
  | [] => None
  | kv :: r =>
      Some (fst (fold_left (fun best x =>
                   if Qle_bool (snd x) (snd best) then best else x) r kv))
  end.

Definition idxmin (s : list (Z * Q)) : option Z :=
  match s with
  | [] => None
  | kv :: r =>
      Some (fst (fold_left (fun best x =>
                   if Qle_bool (snd best) (snd x) then best else x) r kv))
  end.

Record MonthlySeasonality : Type := mkMonthlySeasonality {
  highest_cost_month : Z;
  lowest_cost_month : Z;
  seasonal_variation : npfloat
}.

(** [_calculate_monthly_seasonality]; [None] is the [{}] of the [except]
    branch. *)
Definition _calculate_monthly_seasonality (monthly_data : MonthlyFrame)
    : option MonthlySeasonality :=
  let monthly_patterns := groupby_month_mean monthly_data in
  highest_month ← idxmax monthly_patterns;
  lowest_month ← idxmin monthly_patterns;
  Some {| highest_cost_month := highest_month;
          lowest_cost_month := lowest_month;
          seasonal_variation :=
            np_div (pd_std (map snd monthly_patterns))
                   (Fin (np_mean (map snd monthly_patterns))) |}.

End Seasonality.

(** *** Cost drivers *)

(** Adds one cost to its group; groups are kept in the order of their
    keys, as [groupby] sorts them. *)
Fixpoint group_add (k : string) (c : Q) (g : list (string * Q))
    : list (string * Q) :=
  match g with
  | [] => [(k, c)]
  | kv :: r =>
      match String.compare k (fst kv) with
      | Eq => (fst kv, (snd kv + c)%Q) :: r
      | Lt => (k, c) :: g
      | Gt => kv :: group_add k c r
      end
  end.

(** [df.groupby('resource_type')['cost'].sum()] *)
Definition groupby_resource_type (df : list Observation) : list (string * Q) :=
  fold_left (fun g o => group_add (resource_type o) (cost o) g) df [].

(** [(resource_costs / total_cost * 100).round(2)] on one entry. *)
Definition percentage_of (total_cost c : Q) : npfloat :=
  np_round2 (np_mul (np_div (Fin c) (Fin total_cost)) (Fin 100)).

(** Order of the values that [nlargest] compares ([nan] is dropped
    before). *)
Definition np_leb (x y : npfloat) : bool :=
  match x, y with
  | NInf, _ | _, PInf => true
  | Fin a, Fin b => Qle_bool a b
  | _, _ => false
  end.

Fixpoint insert_desc (x : string * npfloat) (l : list (string * npfloat))
    : list (string * npfloat) :=
  match l with
  | [] => [x]
  | y :: r => if np_leb (snd y) (snd x) then x :: l else y :: insert_desc x r
  end.

(** [Series.nlargest(n)]: the [n] largest values, ties in index order. *)
Definition nlargest (n : nat) (s : list (string * npfloat))
    : list (string * npfloat) :=
  take n (fold_right insert_desc [] (filter (fun kv => is_nan (snd kv) = false) s)).

(** [_calculate_cost_concentration]: [round(((percentages / 100) ** 2).sum(), 2)] *)
Definition _calculate_cost_concentration (percentages : list (string * npfloat))
    : npfloat :=
  let hhi := map (fun kv => let f := np_div (snd kv) (Fin 100) in np_mul f f)
                 percentages in
  np_round2 (pd_sum hhi).

Record CostDrivers : Type := mkCostDrivers {
  top_resources : list (string * npfloat);
  cost_concentration : npfloat
}.

Definition resource_percentages (df : list Observation) : list (string * npfloat) :=
  let resource_costs := groupby_resource_type df in
  let total_cost := Qsum (map snd resource_costs) in
  map (fun kv => (fst kv, percentage_of total_cost (snd kv))) resource_costs.

(** [_analyze_cost_drivers] *)
Definition _analyze_cost_drivers (df : list Observation) : CostDrivers :=
  let percentages := resource_percentages df in
  {| top_resources := nlargest 5 percentages;
     cost_concentration := _calculate_cost_concentration percentages |}.


End CostForecastAnalyzer.

(** ** A small estimator for concrete runs *)

(** The scaler is the identity; fitting refuses a sample of one row (the
    split would leave no training row) and otherwise learns the mean of the
    targets, reduced; [predict] returns it. *)
#[export] Instance MeanRegressor : Sklearn := {|
  Scaler := unit;
  Model := Q;
  scaler_fit := fun _ => tt;
  scaler_transform := fun _ v => v;
  model_fit := fun X y =>
    match X with
    | [] | [_] => None
    | _ => Some (Qred (np_mean y))
    end;
  model_predict := fun m _ => m
|}.

Definition obs (y m d : Z) (c : Q) (rt : string) : Observation :=
  {| date := mkDate y m d; cost := c; resource_type := rt; resource_group := "rg" |}.

(** Five and six consecutive months of history, one observation a month. *)
Definition history5 : list Observation :=
  [obs 2023 1 15 100 "VM"; obs 2023 2 15 110 "VM"; obs 2023 3 15 120 "VM";
   obs 2023 4 15 130 "VM"; obs 2023 5 15 140 "VM"].

Definition history6 : list Observation :=
  history5 ++ [obs 2023 6 15 150 "VM"].

Definition no_seasonality : Analysis := {| seasonality := None |}.

(** An analysis with a monthly index for June (+50%) and no quarterly one. *)
Definition june_analysis : Analysis :=
  {| seasonality := Some {| monthly := Some {[ KInt 6 := (1 # 2)%Q ]};
                            quarterly := None |} |}.

(** ** Accessors used to state properties of the frame *)

Definition cost_at (df : MonthlyFrame) (i : nat) : Q := nth i (frame_costs df) 0%Q.
Definition date_at (df : MonthlyFrame) (i : nat) : Date :=
  nth i (frame_dates df) (mkDate 0 0 0).

(** The training example that the feature builder is documented to make at
    index [i]. *)
Definition training_example (df : MonthlyFrame) (i : nat) : list Q * Q :=
  ([cost_at df i; cost_at df (i + 1); cost_at df (i + 2);
    inject_Z (month (date_at df i)); inject_Z (quarter (date_at df i))],
   cost_at df (i + 3)).


(** The calendar months in which a history has at least one observation. *)
Definition observed_months (h : list Observation) : list Z :=
  remove_dups (map (fun o => month_index (date o)) h).

(** Three resource types with equal cost, and a history without cost. *)
Definition three_types : list Observation :=
  [obs 2023 1 10 1 "Compute"; obs 2023 1 11 1 "Network"; obs 2023 1 12 1 "Storage"].

Definition history_zero : list Observation :=
  [obs 2023 1 15 0 "VM"; obs 2023 2 15 0 "VM"; obs 2023 3 15 0 "VM";
   obs 2023 4 15 0 "VM"; obs 2023 5 15 0 "VM"].


(** ** The forecasting loop as the specification describes it *)

Section RollingWindow.

Context `{SK : Sklearn}.
Variables (sc : Scaler) (m : Model) (last_date : Date).

(** Point estimate of period [i] (counted from 0) for the window [w]: the
    mean of the samples drawn for the feature vector
    [window[0], window[1], window[2], month(p), quarter(p)]. *)
Definition point_estimate (w : list Q) (i : nat) : Q :=
  let p := add_months last_date (Z.of_nat i + 1) in
  np_mean (CostForecaster.bootstrap_predictions m
             (scaler_transform sc
                (w ++ [inject_Z (month p); inject_Z (quarter p)]))).

(** Slide the window: drop [window[0]], append the point estimate. *)
Definition slide (w : list Q) (i : nat) : list Q :=
  drop 1 w ++ [point_estimate w i].

(** The window before period [i0 + k], given the window [seed] before
    period [i0]. *)
Fixpoint window_from (i0 : nat) (seed : list Q) (k : nat) : list Q :=
  match k with
  | O => seed
  | S k' => slide (window_from i0 seed k') (i0 + k')
  end.

(** The window before period [k] of a run seeded with [seed]. *)
Definition rolling_window (seed : list Q) (k : nat) : list Q :=
  window_from 0 seed k.

End RollingWindow.

(** An interval that collapses onto the point estimate of its period. *)
Definition degenerate_at (f : Forecast) (iv : Interval) : Prop :=
  idate iv = fdate f /\ (lower iv == forecast f)%Q /\ (upper iv == forecast f)%Q.

(** Every level has one such interval per forecast, in order. *)
Definition bands_degenerate (fs : list Forecast) (ci : list (Q * list Interval)) : Prop :=
  exists a b c : list Interval,
    ci = [((95 # 100)%Q, a); ((80 # 100)%Q, b); ((50 # 100)%Q, c)] /\
    Forall2 degenerate_at fs a /\ Forall2 degenerate_at fs b /\
    Forall2 degenerate_at fs c.

(** ** Further numpy and pandas helpers *)

(** A date of the calendar. *)
Definition valid_date (d : Date) : Prop :=
  1 <= month d <= 12 /\ 1 <= day d <= days_in_month (year d) (month d).

Definition np_neg (x : npfloat) : npfloat :=
  match x with
  | Fin q => Fin (- q)
  | PInf => NInf
  | NInf => PInf
  | NaN => NaN
  end.

Definition np_sub (x y : npfloat) : npfloat := np_add x (np_neg y).

Definition np_abs (x : npfloat) : npfloat :=
  match x with
  | Fin q => Fin (if Qle_bool 0 q then q else - q)
  | PInf | NInf => PInf
  | NaN => NaN
  end.

(** [x > q] for a float [x] and a finite [q]; a comparison with [nan] is
    false. *)
Definition np_gtb (x : npfloat) (q : Q) : bool :=
  match x with
  | Fin a => negb (Qle_bool a q)
  | PInf => true
  | NInf | NaN => false
  end.

Definition not_nan (l : list npfloat) : list npfloat :=
  filter (fun x => is_nan x = false) l.

(** [Series.mean()]: the mean of the entries that are not [nan]; [nan]
    when there is none. *)
Definition pd_mean (l : list npfloat) : npfloat :=
  np_div (pd_sum l) (Fin (inject_Z (Z.of_nat (length (not_nan l))))).

(** The finite entries of a series once [nan] is skipped, or [None] when an
    infinity is among them. *)
Definition finite_values (l : list npfloat) : option (list Q) :=
  mapM (fun x => match x with Fin q => Some q | _ => None end) (not_nan l).

(** [Series.pct_change()]: [nan] first, then [x / previous - 1]. *)
Fixpoint pct_from (prev : Q) (l : list Q) : list npfloat :=
  match l with
  | [] => []
  | x :: r => np_sub (np_div (Fin x) (Fin prev)) (Fin 1) :: pct_from x r
  end.

Definition pct_change (l : list Q) : list npfloat :=
  match l with
  | [] => []
  | x :: r => NaN :: pct_from x r
  end.

(** ** CostForecastAnalyzer: month-over-month growth *)

Module Growth.
Section WithSqrt.

Variable np_sqrt : Q -> Q.

(** [Series.std()] with [nan] skipped; an infinite entry makes it [nan]. *)
Definition pd_std_skipna (l : list npfloat) : npfloat :=
  match finite_values l with
  | Some qs => CostForecastAnalyzer.pd_std np_sqrt qs
  | None => NaN
  end.

Record MomGrowth : Type := mkMomGrowth {
  average_growth : npfloat;
  growth_std_dev : npfloat;
  last_month_growth : npfloat;
  growth_trend : string
}.

(** [_calculate_mom_growth] on the frame of a non-empty history (the
    [except] branch is not reached then). *)
Definition _calculate_mom_growth (df : list Observation) : MomGrowth :=
  let monthly := frame_costs (_prepare_data df) in
  let growth_rates := pct_change monthly in
  {| average_growth := pd_mean growth_rates;
     growth_std_dev := pd_std_skipna growth_rates;
     last_month_growth :=
       match last growth_rates with
       | Some g => g
       | None => Fin 0
       end;
     growth_trend :=
       if np_gtb (pd_mean growth_rates) 0 then "increasing"%string
       else "decreasing"%string |}.

End WithSqrt.
End Growth.

(** ** CostForecastOptimizer: insights and recommendations *)

Module CostForecastOptimizer.

Local Open Scope string_scope.

(** [analysis['trends']['linear_trend']] when it has its keys. *)
Record LinearTrend : Type := mkLinearTrend {
  slope : npfloat;
  trend_type : string;
  trend_strength : npfloat
}.

(** The entries of [analysis] that the optimizer reads.  [linear_trend] is
    [None] when [analysis['trends']] or its [linear_trend] is the empty
    dictionary of an [except] branch; [monthly] is [None] for the empty
    dictionary. *)
Record AnalysisView : Type := mkAnalysisView {
  linear_trend : option LinearTrend;
  average_growth : npfloat;
  monthly : option CostForecastAnalyzer.MonthlySeasonality;
  cost_drivers : CostForecastAnalyzer.CostDrivers
}.

Inductive Details : Type :=
| TrendDetails (trend_strength monthly_growth : npfloat)
| SeasonalityDetails (pattern : CostForecastAnalyzer.MonthlySeasonality)
| ConcentrationDetails (concentration_index : npfloat)
                       (top_resources : list (string * npfloat))
| UncertaintyDetails (uncertainty_metrics : list (Q * UncertaintyMetrics))
| GrowthDetails (growth_rate : npfloat) (trend : string).

Record Insight : Type := mkInsight {
  itype : string;
  category : string;
  severity : string;
  description : string;
  details : Details
}.

Record Recommendation : Type := mkRecommendation {
  rtype : string;
  priority : string;
  title : string;
  rdescription : string;
  actions : list string
}.

(** [any(m['relative_uncertainty'] > q for m in uncertainty_metrics.values())] *)
Definition any_uncertainty_above (q : Q) (um : list (Q * UncertaintyMetrics)) : bool :=
  existsb (fun kv => np_gtb (relative_uncertainty (snd kv)) q) um.

(** The [try] block of [_generate_insights]; [None] is a [KeyError]. *)
Definition insights_body (analysis : AnalysisView) (forecasts : ForecastResult)
    : option (list Insight) :=
  lt ← linear_trend analysis;
  let trend :=
    if String.eqb (trend_type lt) "increasing" then
      [ {| itype := "trend"; category := "cost_trend";
           severity := if np_gtb (trend_strength lt) (1 # 10) then "high" else "medium";
           description := "Costs show an increasing trend";
           details := TrendDetails (trend_strength lt) (average_growth analysis) |} ]
    else [] in
  let pattern :=
    match monthly analysis with
    | Some mp =>
        [ {| itype := "pattern"; category := "seasonality"; severity := "medium";
             description := "Clear monthly cost patterns detected";
             details := SeasonalityDetails mp |} ]
    | None => []
    end in
  let concentration :=
    if np_gtb (CostForecastAnalyzer.cost_concentration (cost_drivers analysis)) (5 # 10) then
      [ {| itype := "concentration"; category := "cost_distribution";
           severity := "high";
           description := "High concentration of costs in few resources";
           details :=
             ConcentrationDetails
               (CostForecastAnalyzer.cost_concentration (cost_drivers analysis))
               (CostForecastAnalyzer.top_resources (cost_drivers analysis)) |} ]
    else [] in
  mt ← metrics forecasts;
  let uncertainty :=
    if any_uncertainty_above (2 # 10) (uncertainty_metrics mt) then
      [ {| itype := "uncertainty"; category := "forecast_quality";
           severity := "medium";
           description := "High uncertainty in cost forecasts";
           details := UncertaintyDetails (uncertainty_metrics mt) |} ]
    else [] in
  let growth :=
    if np_gtb (np_abs (forecast_growth mt)) (2 # 10) then
      [ {| itype := "growth"; category := "future_trend"; severity := "high";
           description :=
             String.append "Significant "
               (String.append
                  (if np_gtb (forecast_growth mt) 0 then "increase" else "decrease")
                  " in costs expected");
           details := GrowthDetails (forecast_growth mt) (forecast_trend mt) |} ]
    else [] in
  Some (trend ++ pattern ++ concentration ++ uncertainty ++ growth)%list.

(** [_generate_insights]: the [except] branch returns the empty list. *)
Definition _generate_insights (analysis : AnalysisView) (forecasts : ForecastResult)
    : list Insight :=
  default [] (insights_body analysis forecasts).

Definition cost_controls : Recommendation :=
  {| rtype := "cost_optimization"; priority := "high";
     title := "Implement Cost Controls";
     rdescription := "Rising cost trend detected. Consider implementing:";
     actions := ["Set up budget alerts";
                 "Review and optimize resource usage";
                 "Implement auto-scaling policies";
                 "Consider reserved instances for stable workloads"] |}.

Definition seasonal_optimization : Recommendation :=
  {| rtype := "resource_management"; priority := "medium";
     title := "Optimize for Seasonal Patterns";
     rdescription := "Clear seasonal patterns detected. Consider:";
     actions := ["Implement auto-scaling based on seasonal patterns";
                 "Schedule resources based on usage patterns";
                 "Review capacity planning for peak periods"] |}.

Definition diversify_usage : Recommendation :=
  {| rtype := "cost_distribution"; priority := "high";
     title := "Diversify Resource Usage";
     rdescription := "High concentration of costs. Consider:";
     actions := ["Review and optimize top cost-driving resources";
                 "Evaluate alternative service options";
                 "Implement multi-service architecture where applicable"] |}.

Definition prepare_for_increase : Recommendation :=
  {| rtype := "future_planning"; priority := "high";
     title := "Prepare for Cost Increases";
     rdescription := "Significant cost increase expected. Actions needed:";
     actions := ["Review and adjust budgets";
                 "Implement stricter cost controls";
                 "Evaluate cost-saving opportunities";
                 "Consider long-term resource commitments"] |}.

Definition manage_uncertainty : Recommendation :=
  {| rtype := "risk_management"; priority := "medium";
     title := "Manage Cost Uncertainty";
     rdescription := "High forecast uncertainty detected. Consider:";
     actions := ["Set up buffer in cost budgets";
                 "Implement more granular monitoring";
                 "Review and stabilize variable cost components";
                 "Consider reserved instances for stable components"] |}.

(** The [try] block of [_generate_recommendations]. *)
Definition recommendations_body (analysis : AnalysisView) (forecasts : ForecastResult)
    : option (list Recommendation) :=
  lt ← linear_trend analysis;
  let trend :=
    if String.eqb (trend_type lt) "increasing" then [cost_controls] else [] in
  let pattern :=
    match monthly analysis with
    | Some _ => [seasonal_optimization]
    | None => []
    end in
  let concentration :=
    if np_gtb (CostForecastAnalyzer.cost_concentration (cost_drivers analysis)) (5 # 10)
    then [diversify_usage] else [] in
  mt ← metrics forecasts;
  let growth :=
    if np_gtb (forecast_growth mt) (2 # 10) then [prepare_for_increase] else [] in
  let uncertainty :=
    if any_uncertainty_above (2 # 10) (uncertainty_metrics mt)
    then [manage_uncertainty] else [] in
  Some (trend ++ pattern ++ concentration ++ growth ++ uncertainty)%list.

(** [_generate_recommendations] *)
Definition _generate_recommendations (analysis : AnalysisView)
    (forecasts : ForecastResult) : list Recommendation :=
  default [] (recommendations_body analysis forecasts).

Record InsightSummary : Type := mkInsightSummary {
  high_severity : nat;
  medium_severity : nat;
  categories : gset string;
  top_insights : list string
}.

(** [_summarize_insights]; [list(set(...))] has no fixed order and is kept
    as a set. *)
Definition _summarize_insights (insights : list Insight) : InsightSummary :=
  {| high_severity :=
       length (filter (fun i => severity i = "high") insights);
     medium_severity :=
       length (filter (fun i => severity i = "medium") insights);
     categories := list_to_set (map category insights);
     top_insights :=
       map description (filter (fun i => severity i = "high") insights) |}.

Record UncertaintySummary : Type := mkUncertaintySummary {
  overall_assessment : string;
  level_uncertainty : list (Q * npfloat)
}.

(** [_summarize_uncertainty] *)
Definition _summarize_uncertainty (um : list (Q * UncertaintyMetrics))
    : UncertaintySummary :=
  {| overall_assessment :=
       if any_uncertainty_above (2 # 10) um then "high"
       else if any_uncertainty_above (1 # 10) um then "medium"
       else "low";
     level_uncertainty :=
       map (fun kv => (fst kv, relative_uncertainty (snd kv))) um |}.

End CostForecastOptimizer.

(** A positive, strictly increasing cost series. *)
Fixpoint increasing_from (prev : Q) (l : list Q) : Prop :=
  match l with
  | [] => True
  | x :: r => (prev < x)%Q /\ increasing_from x r
  end.

Definition positive_increasing (l : list Q) : Prop :=
  match l with
  | [] => True
  | x :: r => (0 < x)%Q /\ increasing_from x r
  end.

(** A forecaster fitted on an earlier history, whose model is stale. *)
Definition stale_forecaster : CostForecaster.t :=
  CostForecaster.mk (Some tt) (Some 500%Q).

(** Four months of history: one training example only. *)
Definition history4 : list Observation :=
  [obs 2023 1 15 100 "VM"; obs 2023 2 15 110 "VM"; obs 2023 3 15 120 "VM";
   obs 2023 4 15 130 "VM"].

(** Three months, with a gap in February. *)
Definition history_gap : list Observation :=
  [obs 2023 1 15 100 "VM"; obs 2023 1 20 50 "Storage"; obs 2023 3 15 120 "VM"].

(** An analysis as the analyzer shapes it: field names as keys of
    [monthly], and a [quarterly] entry. *)
Definition analyzer_monthly : gmap Key Q :=
  {[ KStr "highest_cost_month" := 6%Q;
     KStr "lowest_cost_month" := 1%Q;
     KStr "seasonal_variation" := (1 # 5)%Q ]}.

Definition analyzer_patterns : SeasonalPatterns :=
  {| monthly := Some analyzer_monthly;
     quarterly := Some {[ KStr "highest_cost_quarter" := 2%Q ]} |}.

Definition analyzer_shaped : Analysis :=
  {| seasonality := Some analyzer_patterns |}.

(** Order of the keys of a grouped series. *)
Definition key_lt (a b : string) : Prop := String.compare a b = Lt.

(** Sum of the costs of the observations of one resource type. *)
Definition type_total (df : list Observation) (rt : string) : Q :=
  Qsum (map cost (filter (fun o => resource_type o = rt) df)).


(** The order in which insights and recommendations are appended. *)
Definition insight_order : list string :=
  ["trend"; "pattern"; "concentration"; "uncertainty"; "growth"]%string.

Definition recommendation_order : list string :=
  ["cost_optimization"; "resource_management"; "cost_distribution";
   "future_planning"; "risk_management"]%string.

(** An analysis with an increasing trend and concentrated costs. *)
Definition sample_view : CostForecastOptimizer.AnalysisView :=
  {| CostForecastOptimizer.linear_trend :=
       Some {| CostForecastOptimizer.slope := Fin 10;
               CostForecastOptimizer.trend_type := "increasing";
               CostForecastOptimizer.trend_strength := Fin (2 # 10) |};
     CostForecastOptimizer.average_growth := Fin (8 # 100);
     CostForecastOptimizer.monthly := None;
     CostForecastOptimizer.cost_drivers :=
       CostForecastAnalyzer._analyze_cost_drivers history5 |}.

(** The same analysis after a failure of the trend analysis: [trends] is
    the empty dictionary. *)
Definition view_without_trend : CostForecastOptimizer.AnalysisView :=
  {| CostForecastOptimizer.linear_trend := None;
     CostForecastOptimizer.average_growth := Fin (8 # 100);
     CostForecastOptimizer.monthly := None;
     CostForecastOptimizer.cost_drivers :=
       CostForecastAnalyzer._analyze_cost_drivers history5 |}.

(** * Properties *)

(** ** Feature construction *)

Lemma mapM_fmap_pointwise {A B : Type} (f : A -> option B) (g : A -> B) (l : list A) :
  Forall (fun x => f x = Some (g x)) l -> mapM f l = Some (g <$> l).
Proof.
  induction 1 as [|x l Hx _ IH]; [done|].
  cbn. rewrite Hx. cbn. rewrite IH. done.
Qed.

Lemma lookup_nth_default {A : Type} (l : list A) (i : nat) (d : A) :
  (i < length l)%nat -> l !! i = Some (nth i l d).
Proof.
  revert i. induction l as [|a l IH]; intros [|i] Hi; cbn in *; try lia; [done|].
  apply IH. lia.
Qed.

Lemma feature_row_in_range (df : MonthlyFrame) (i : nat) :
  (i + 3 < length df)%nat -> feature_row df i = Some (training_example df i).
Proof.
  intros Hi. unfold feature_row, training_example, cost_at, date_at.
  assert (Hc : length (frame_costs df) = length df) by apply length_map.
  assert (Hd : length (frame_dates df) = length df) by apply length_map.
  rewrite (lookup_nth_default (frame_costs df) i 0%Q) by lia.
  rewrite (lookup_nth_default (frame_costs df) (i + 1) 0%Q) by lia.
  rewrite (lookup_nth_default (frame_costs df) (i + 2) 0%Q) by lia.
  rewrite (lookup_nth_default (frame_dates df) i (mkDate 0 0 0)) by lia.
  rewrite (lookup_nth_default (frame_costs df) (i + 3) 0%Q) by lia.
  done.
Qed.

Lemma create_features_rows (df : MonthlyFrame) :
  _create_features df =
    (fst <$> (training_example df <$> seq 0 (length df - 3)),
     snd <$> (training_example df <$> seq 0 (length df - 3))).
Proof.
  unfold _create_features.
  rewrite (mapM_fmap_pointwise _ (training_example df)); [done|].
  apply Forall_forall. intros i Hi.
  apply list_elem_of_In, in_seq in Hi.
  apply feature_row_in_range. lia.
Qed.

(** C7.  A monthly series of length L >= 4 yields exactly L-3 training
    examples; example i (0 <= i <= L-4) has the features
    [cost(i), cost(i+1), cost(i+2), month(period i), quarter(period i)] and
    the target cost(i+3). *)
Theorem create_features_sliding_window (df : MonthlyFrame) :
  (4 <= length df)%nat ->
  length (fst (_create_features df)) = (length df - 3)%nat /\
  length (snd (_create_features df)) = (length df - 3)%nat /\
  forall i : nat, (i <= length df - 4)%nat ->
    fst (_create_features df) !! i =
      Some [cost_at df i; cost_at df (i + 1); cost_at df (i + 2);
            inject_Z (month (date_at df i)); inject_Z (quarter (date_at df i))] /\
    snd (_create_features df) !! i = Some (cost_at df (i + 3)).
Proof.
  intros HL. rewrite create_features_rows. cbn [fst snd].
  rewrite !length_fmap, length_seq.
  split; [done|]. split; [done|].
  intros i Hi.
  rewrite !list_lookup_fmap, lookup_seq_lt by lia.
  done.
Qed.

Lemma create_features_sliding_window_witness :
  let df := _prepare_data history6 in
  (4 <= length df)%nat /\
  length (fst (_create_features df)) = 3%nat /\
  fst (_create_features df) !! 2%nat =
    Some [cost_at df 2; cost_at df 3; cost_at df 4;
          inject_Z (month (date_at df 2)); inject_Z (quarter (date_at df 2))] /\
  snd (_create_features df) !! 2%nat = Some (cost_at df 5).
Proof.
  intros df.
  assert (HL : (4 <= length df)%nat) by (vm_compute; lia).
  pose proof (create_features_sliding_window df HL) as (H1 & _ & H3).
  split; [exact HL|]. split; [exact H1|].
  apply (H3 2%nat). vm_compute. lia.
Defined.

(** ** Samples, mean and percentiles of one period *)

Lemma Qle_bool_refl (x : Q) : Qle_bool x x = true.
Proof. apply Qle_bool_iff. apply Qle_refl. Qed.

Lemma fold_Qplus_replicate (n : nat) (p a : Q) :
  (fold_left Qplus (replicate n p) a == a + inject_Z (Z.of_nat n) * p)%Q.
Proof.
  revert a. induction n as [|n IH]; intros a.
  - cbn. ring.
  - cbn [replicate fold_left]. rewrite IH.
    rewrite Nat2Z.inj_succ. unfold Z.succ. rewrite inject_Z_plus. ring.
Qed.

Lemma np_mean_replicate (n : nat) (p : Q) :
  (0 < n)%nat -> (np_mean (replicate n p) == p)%Q.
Proof.
  intros Hn. unfold np_mean, Qsum.
  rewrite fold_Qplus_replicate, length_replicate.
  assert (H : ~ (inject_Z (Z.of_nat n) == 0)%Q).
  { intros E. unfold Qeq in E. cbn in E. lia. }
  field. exact H.
Qed.

Lemma np_sort_replicate (n : nat) (p : Q) :
  np_sort (replicate n p) = replicate n p.
Proof.
  induction n as [|n IH]; [done|].
  cbn [replicate np_sort fold_right]. fold (np_sort (replicate n p)).
  rewrite IH. destruct n as [|n]; [done|].
  cbn [replicate insert_sorted]. by rewrite Qle_bool_refl.
Qed.

Lemma virtual_index_bounds (n : Z) (q : Q) :
  1 <= n -> (0 <= q)%Q -> (q <= 100)%Q ->
  0 <= Qfloor (inject_Z (n - 1) * q / 100) <= n - 1.
Proof.
  intros Hn H0 H100.
  set (N := inject_Z (n - 1)).
  assert (HN : (0 <= N)%Q).
  { unfold N. rewrite <- (Zle_Qle 0). lia. }
  assert (Hlo : (0 <= N * q / 100)%Q).
  { apply Qle_shift_div_l; [reflexivity|].
    rewrite Qmult_0_l.
    apply Qmult_le_0_compat; assumption. }
  assert (Hhi : (N * q / 100 <= N)%Q).
  { apply Qle_shift_div_r; [reflexivity|].
    nra. }
  split.
  - rewrite <- (Qfloor_Z 0). apply Qfloor_resp_le. exact Hlo.
  - rewrite <- (Qfloor_Z (n - 1)). apply Qfloor_resp_le. exact Hhi.
Qed.

Lemma np_percentile_replicate (n : nat) (p q : Q) :
  (0 < n)%nat -> (0 <= q)%Q -> (q <= 100)%Q ->
  exists x, np_percentile (replicate n p) q = Some x /\ (x == p)%Q.
Proof.
  intros Hn H0 H100. unfold np_percentile.
  apply Qle_bool_iff in H0 as B0. apply Qle_bool_iff in H100 as B100.
  rewrite B0, B100. cbn [andb].
  rewrite np_sort_replicate, length_replicate.
  pose proof (virtual_index_bounds (Z.of_nat n) q ltac:(lia) H0 H100) as Hb.
  set (h := (inject_Z (Z.of_nat n - 1) * q / 100)%Q) in *.
  rewrite (lookup_replicate_2 n p (Z.to_nat (Qfloor h))) by lia.
  rewrite (lookup_replicate_2 n p (Z.to_nat (Z.min (Qfloor h + 1) (Z.of_nat n - 1)))) by lia.
  cbn. eexists. split; [reflexivity|]. ring.
Qed.

(** ** One iteration of the prediction loop *)

Section LoopFacts.

Context `{SK : Sklearn}.
Variables (sc : Scaler) (m : Model) (last_date : Date).

Import CostForecaster.

Lemma bootstrap_predictions_constant (v : list Q) :
  bootstrap_predictions m v = replicate 100 (model_predict m v).
Proof. reflexivity. Qed.

Lemma level_interval_constant (v : list Q) (d : Date) (level : Q) :
  (0 <= level)%Q -> (level <= 1)%Q ->
  exists iv, level_interval (bootstrap_predictions m v) d level = Some iv /\
             idate iv = d /\
             (lower iv == model_predict m v)%Q /\
             (upper iv == model_predict m v)%Q.
Proof.
  intros H0 H1. unfold level_interval.
  rewrite bootstrap_predictions_constant.
  assert (E1 : ((100 - level * 100) / 2 == 50 - 50 * level)%Q) by field.
  assert (E2 : (50 + level * 100 / 2 == 50 + 50 * level)%Q) by field.
  destruct (np_percentile_replicate 100 (model_predict m v)
              ((100 - level * 100) / 2)%Q) as (lo & -> & Hlo);
    [lia | rewrite E1; lra | rewrite E1; lra |].
  destruct (np_percentile_replicate 100 (model_predict m v)
              (50 + level * 100 / 2)%Q) as (hi & -> & Hhi);
    [lia | rewrite E2; lra | rewrite E2; lra |].
  cbn. eexists. split; [reflexivity|]. cbn. done.
Qed.

Lemma add_intervals_levels (v : list Q) (d : Date) (a b c : list Interval) :
  exists i1 i2 i3,
    add_intervals (bootstrap_predictions m v) d confidence_levels
      [((95 # 100)%Q, a); ((80 # 100)%Q, b); ((50 # 100)%Q, c)]
    = Some [((95 # 100)%Q, a ++ [i1]); ((80 # 100)%Q, b ++ [i2]);
            ((50 # 100)%Q, c ++ [i3])] /\
    Forall (fun iv => idate iv = d /\
                      (lower iv == model_predict m v)%Q /\
                      (upper iv == model_predict m v)%Q) [i1; i2; i3].
Proof.
  destruct (level_interval_constant v d (95 # 100)%Q) as (i1 & E1 & P1);
    [lra | lra |].
  destruct (level_interval_constant v d (80 # 100)%Q) as (i2 & E2 & P2);
    [lra | lra |].
  destruct (level_interval_constant v d (50 # 100)%Q) as (i3 & E3 & P3);
    [lra | lra |].
  exists i1, i2, i3. split.
  - unfold confidence_levels. cbn [add_intervals].
    rewrite E1. cbn [mbind option_bind]. rewrite E2. cbn [mbind option_bind].
    rewrite E3. reflexivity.
  - repeat constructor; tauto.
Qed.

(** What one iteration does to a window of three costs. *)
Lemma predict_iter_window (i : nat) (st : LoopState) (w0 w1 w2 : Q) :
  last_costs st = [w0; w1; w2] ->
  bands_degenerate (acc_forecasts st) (acc_intervals st) ->
  exists st',
    predict_iter sc m last_date i st = Some st' /\
    last_costs st' = slide sc m last_date (last_costs st) i /\
    acc_forecasts st' =
      acc_forecasts st ++
        [{| fdate := add_months last_date (Z.of_nat i + 1);
            forecast := point_estimate sc m last_date (last_costs st) i |}] /\
    bands_degenerate (acc_forecasts st') (acc_intervals st').
Proof.
  intros Hw (a & b & c & Hci & Ha & Hb & Hc).
  unfold predict_iter. rewrite Hw, Hci. cbn [feature_vector lookup list_lookup mbind option_bind].
  set (d := add_months last_date (Z.of_nat i + 1)).
  set (v := scaler_transform sc [w0; w1; w2; inject_Z (month d); inject_Z (quarter d)]).
  destruct (add_intervals_levels v d a b c) as (i1 & i2 & i3 & -> & Hiv).
  cbn [mbind option_bind]. eexists. split; [reflexivity|].
  cbn [last_costs acc_forecasts acc_intervals].
  split; [reflexivity|]. split; [reflexivity|].
  assert (Hmean : (np_mean (bootstrap_predictions m v) == model_predict m v)%Q).
  { rewrite bootstrap_predictions_constant. apply np_mean_replicate. lia. }
  inversion Hiv as [|? ? (D1 & L1 & U1) Hiv2]; subst.
  inversion Hiv2 as [|? ? (D2 & L2 & U2) Hiv3]; subst.
  inversion Hiv3 as [|? ? (D3 & L3 & U3) _]; subst.
  exists (a ++ [i1]), (b ++ [i2]), (c ++ [i3]). split; [reflexivity|].
  repeat split; apply Forall2_app; try assumption;
    (constructor; [|constructor]); unfold degenerate_at; cbn [fdate forecast];
    rewrite Hmean; tauto.
Qed.

End LoopFacts.

(** ** The whole loop *)

Section LoopTrace.

Context `{SK : Sklearn}.
Variables (sc : Scaler) (m : Model) (last_date : Date).

Import CostForecaster.

(** Forecast record of period [k] for the window [w]. *)
Local Abbreviation period_forecast w k :=
  {| fdate := add_months last_date (Z.of_nat k + 1);
     forecast := point_estimate sc m last_date w k |}.

Lemma window_from_shift (i : nat) (seed : list Q) (k : nat) :
  window_from sc m last_date i seed (S k) =
  window_from sc m last_date (S i) (slide sc m last_date seed i) k.
Proof.
  induction k as [|k IH].
  - cbn. by rewrite Nat.add_0_r.
  - cbn [window_from] in *. rewrite IH.
    by rewrite Nat.add_succ_r.
Qed.

Lemma slide_three (w0 w1 w2 : Q) (i : nat) :
  slide sc m last_date [w0; w1; w2] i =
    [w1; w2; point_estimate sc m last_date [w0; w1; w2] i].
Proof. reflexivity. Qed.

Lemma predict_loop_trace (n : nat) :
  forall (i : nat) (st : LoopState) (w0 w1 w2 : Q),
    last_costs st = [w0; w1; w2] ->
    bands_degenerate (acc_forecasts st) (acc_intervals st) ->
    exists st',
      predict_loop sc m last_date n i st = Some st' /\
      last_costs st' = window_from sc m last_date i (last_costs st) n /\
      acc_forecasts st' =
        acc_forecasts st ++
          ((fun k => period_forecast
                       (window_from sc m last_date i (last_costs st) k) (i + k)%nat)
             <$> seq 0 n) /\
      bands_degenerate (acc_forecasts st') (acc_intervals st').
Proof.
  induction n as [|n IH]; intros i st w0 w1 w2 Hw Hb.
  - exists st. cbn. by rewrite app_nil_r.
  - destruct (predict_iter_window sc m last_date i st w0 w1 w2 Hw Hb)
      as (st1 & E1 & Hw1 & Hf1 & Hb1).
    assert (Hw1' : last_costs st1 =
              [w1; w2; point_estimate sc m last_date [w0; w1; w2] i]).
    { rewrite Hw1, Hw. apply slide_three. }
    destruct (IH (S i) st1 _ _ _ Hw1' Hb1) as (st' & E' & Hw' & Hf' & Hb').
    exists st'. cbn [predict_loop]. rewrite E1. cbn [mbind option_bind].
    split; [exact E'|]. split; [|split; [|exact Hb']].
    + rewrite Hw', Hw1. symmetry. apply window_from_shift.
    + rewrite Hf', Hf1, <- app_assoc. f_equal.
      cbn [seq fmap list_fmap app]. rewrite Nat.add_0_r. f_equal.
      rewrite <- fmap_S_seq, <- list_fmap_compose.
      apply list_fmap_ext. intros j k _. unfold compose.
      rewrite Hw1, window_from_shift, Nat.add_succ_r. done.
Qed.

End LoopTrace.

Lemma iloc_last3_three (l : list Q) :
  (3 <= length l)%nat ->
  iloc_last3 l = [nth (length l - 3) l 0%Q; nth (length l - 2) l 0%Q;
                  nth (length l - 1) l 0%Q].
Proof.
  intros HL. unfold iloc_last3. apply list_eq. intros i.
  rewrite lookup_drop.
  destruct i as [|[|[|i]]]; cbn.
  - rewrite Nat.add_0_r. apply lookup_nth_default. lia.
  - replace (length l - 3 + 1)%nat with (length l - 2)%nat by lia.
    apply lookup_nth_default. lia.
  - replace (length l - 3 + 2)%nat with (length l - 1)%nat by lia.
    apply lookup_nth_default. lia.
  - apply lookup_ge_None. lia.
Qed.

Lemma last_is_Some {A : Type} (l : list A) :
  (0 < length l)%nat -> is_Some (last l).
Proof.
  intros HL. destruct l as [|a l]; [cbn in HL; lia|].
  rewrite last_cons. destruct (last l); eauto.
Qed.

Section RawPredictions.

Context `{SK : Sklearn}.
Import CostForecaster.

(** With both estimators fitted and at least three monthly rows the loop
    runs to its end, and its outcome is the rolling-window recurrence. *)
Lemma raw_predictions_trace (self : t) (df : MonthlyFrame) (sc : Scaler) (m : Model) :
  scaler self = Some sc -> model self = Some m -> (3 <= length df)%nat ->
  exists st last_date,
    last (frame_dates df) = Some last_date /\
    raw_predictions self df = Some st /\
    last_costs st =
      rolling_window sc m last_date (iloc_last3 (frame_costs df)) forecast_periods /\
    acc_forecasts st =
      (fun k => {| fdate := add_months last_date (Z.of_nat k + 1);
                   forecast :=
                     point_estimate sc m last_date
                       (rolling_window sc m last_date (iloc_last3 (frame_costs df)) k) k |})
        <$> seq 0 forecast_periods /\
    bands_degenerate (acc_forecasts st) (acc_intervals st).
Proof.
  intros Hsc Hm HL.
  destruct (last_is_Some (frame_dates df)) as [ld Hld].
  { unfold frame_dates. rewrite length_map. lia. }
  assert (Hseed := iloc_last3_three (frame_costs df)).
  unfold frame_costs at 1 in Hseed. rewrite length_map in Hseed.
  specialize (Hseed HL).
  assert (Hb0 : bands_degenerate (acc_forecasts (initial_state df))
                                 (acc_intervals (initial_state df))).
  { exists [], [], []. cbn. repeat split; constructor. }
  destruct (predict_loop_trace sc m ld forecast_periods 0 (initial_state df)
              _ _ _ Hseed Hb0) as (st & E & Hw & Hf & Hb).
  exists st, ld. split; [exact Hld|].
  split.
  { unfold raw_predictions. rewrite Hld, Hsc, Hm. exact E. }
  split; [exact Hw|]. split; [|exact Hb].
  rewrite Hf. reflexivity.
Qed.

End RawPredictions.

(** ** From the entry point down to the loop *)

Section EntryPoint.

Context `{SK : Sklearn}.
Import CostForecaster.

Lemma create_features_length (df : MonthlyFrame) :
  length (fst (_create_features df)) = (length df - 3)%nat.
Proof.
  rewrite create_features_rows. cbn [fst].
  by rewrite !length_fmap, length_seq.
Qed.

(** A returned result comes from a frame of at least four months, the
    retrained object and [_generate_predictions]. *)
Lemma generate_forecast_Some (self : t) (h : list Observation) (an : Analysis)
    (r : ForecastResult) :
  snd (generate_forecast self h an) = Some r ->
  let df := _prepare_data h in
  let self' := _train_model self (fst (_create_features df)) (snd (_create_features df)) in
  (4 <= length df)%nat /\
  fst (generate_forecast self h an) = self' /\
  _generate_predictions self' df an = Some r.
Proof.
  unfold generate_forecast. cbn zeta.
  generalize (create_features_length (_prepare_data h)).
  generalize (_prepare_data h) as df. intros df HX H.
  destruct (_create_features df) as [X y] eqn:EXy. cbn [fst snd] in *.
  destruct df as [|row df'] eqn:Edf; [by cbn in H|].
  rewrite <- Edf in *.
  destruct (length X =? 0)%nat eqn:E0; [by cbn in H|].
  apply Nat.eqb_neq in E0. cbn [fst snd] in *.
  split; [lia|]. split; [reflexivity|exact H].
Qed.

Lemma generate_predictions_Some (self : t) (df : MonthlyFrame) (an : Analysis)
    (r : ForecastResult) :
  _generate_predictions self df an = Some r ->
  exists st,
    raw_predictions self df = Some st /\
    forecasts r = _apply_seasonal_adjustments (acc_forecasts st) an /\
    confidence_intervals r = acc_intervals st /\
    metrics r = _calculate_forecast_metrics (forecasts r) (acc_intervals st).
Proof.
  unfold _generate_predictions. intros H.
  destruct (raw_predictions self df) as [st|]; [|discriminate H].
  cbn in H. injection H as <-. exists st. cbn. done.
Qed.

Lemma raw_predictions_fitted (self : t) (df : MonthlyFrame) (st : LoopState) :
  raw_predictions self df = Some st ->
  exists sc m, scaler self = Some sc /\ model self = Some m.
Proof.
  unfold raw_predictions. intros H.
  destruct (last (frame_dates df)); [|discriminate H].
  destruct (scaler self) as [sc|]; [|discriminate H].
  destruct (model self) as [m|]; [|discriminate H].
  eauto.
Qed.

(** Everything the later properties need about a returned result. *)
Lemma generate_forecast_trace (self : t) (h : list Observation) (an : Analysis)
    (r : ForecastResult) :
  snd (generate_forecast self h an) = Some r ->
  exists st sc m last_date,
    let df := _prepare_data h in
    let self' := fst (generate_forecast self h an) in
    (4 <= length df)%nat /\
    scaler self' = Some sc /\ model self' = Some m /\
    last (frame_dates df) = Some last_date /\
    raw_predictions self' df = Some st /\
    acc_forecasts st =
      (fun k => {| fdate := add_months last_date (Z.of_nat k + 1);
                   forecast :=
                     point_estimate sc m last_date
                       (rolling_window sc m last_date (iloc_last3 (frame_costs df)) k) k |})
        <$> seq 0 forecast_periods /\
    last_costs st =
      rolling_window sc m last_date (iloc_last3 (frame_costs df)) forecast_periods /\
    bands_degenerate (acc_forecasts st) (acc_intervals st) /\
    forecasts r = _apply_seasonal_adjustments (acc_forecasts st) an /\
    confidence_intervals r = acc_intervals st /\
    metrics r = _calculate_forecast_metrics (forecasts r) (acc_intervals st).
Proof.
  intros H. destruct (generate_forecast_Some _ _ _ _ H) as (HL & Hself & Hgp).
  destruct (generate_predictions_Some _ _ _ _ Hgp) as (st & Hraw & Hf & Hci & Hm).
  destruct (raw_predictions_fitted _ _ _ Hraw) as (sc & m & Hsc & Hmo).
  destruct (raw_predictions_trace _ (_prepare_data h) sc m Hsc Hmo ltac:(lia))
    as (st' & ld & Hld & Hraw' & Hw & Hfs & Hb).
  rewrite Hraw in Hraw'. injection Hraw' as <-.
  exists st, sc, m, ld. cbn zeta. rewrite Hself.
  repeat (split; [assumption|]). assumption.
Qed.

End EntryPoint.

Lemma bands_degenerate_lookup (fs : list Forecast) (ci : list (Q * list Interval))
    (level : Q) (ivs : list Interval) :
  bands_degenerate fs ci -> (level, ivs) ∈ ci ->
  Forall2 degenerate_at fs ivs.
Proof.
  intros (a & b & c & -> & Ha & Hb & Hc) Hin.
  repeat (apply elem_of_cons in Hin as [Hin|Hin]; [by inversion Hin; subst|]).
  by apply elem_of_nil in Hin.
Qed.


(** ** The rolling window *)

Section Autoregression.

Context `{SK : Sklearn}.
Import CostForecaster.




End Autoregression.


(** ** Calendar arithmetic and the monthly frame *)

Lemma month_index_add_months (d : Date) (n : Z) :
  month_index (add_months d n) = month_index d + n.
Proof.
  unfold add_months, month_index at 1. cbn [year month].
  pose proof (Z.div_mod (month_index d + n) 12 ltac:(lia)). lia.
Qed.

Lemma month_add_months_range (d : Date) (n : Z) :
  1 <= month (add_months d n) <= 12.
Proof.
  unfold add_months. cbn [month].
  pose proof (Z.mod_pos_bound (month_index d + n) 12 ltac:(lia)). lia.
Qed.

Lemma month_index_month_end (k : Z) : month_index (month_end k) = k.
Proof.
  unfold month_end, month_index. cbn [year month].
  pose proof (Z.div_mod k 12 ltac:(lia)). lia.
Qed.

Lemma fold_min_le (a : Z) (l : list Z) : fold_right Z.min a l <= a.
Proof. induction l as [|x l IH]; cbn; lia. Qed.

Lemma fold_max_ge (a : Z) (l : list Z) : a <= fold_right Z.max a l.
Proof. induction l as [|x l IH]; cbn; lia. Qed.

Lemma first_month_le_last_month (h : list Observation) :
  first_month h <= last_month h.
Proof.
  destruct h as [|o r]; cbn; [lia|].
  etransitivity; [apply fold_min_le|apply fold_max_ge].
Qed.

(** The frame has one row per month from the first to the last observed
    month. *)
Lemma prepare_data_length (h : list Observation) :
  h <> [] ->
  length (_prepare_data h) = Z.to_nat (last_month h - first_month h + 1).
Proof.
  intros Hh. destruct h as [|o r]; [done|].
  unfold _prepare_data. by rewrite length_map, length_seqZ.
Qed.

Lemma prepare_data_last (h : list Observation) :
  h <> [] ->
  last (frame_dates (_prepare_data h)) = Some (month_end (last_month h)).
Proof.
  intros Hh. pose proof (first_month_le_last_month h) as Hle.
  destruct h as [|o r]; [done|].
  unfold _prepare_data, frame_dates.
  set (lo := first_month (o :: r)) in *. set (hi := last_month (o :: r)) in *.
  rewrite last_lookup, !length_map, length_seqZ.
  rewrite !list_lookup_fmap.
  rewrite (lookup_seqZ_lt lo (hi - lo + 1) (Init.Nat.pred (Z.to_nat (hi - lo + 1)))) by lia.
  cbn [fmap option_fmap option_map fst]. do 2 f_equal.
  clearbody lo hi. lia.
Qed.

Lemma prepare_data_nonempty (h : list Observation) :
  _prepare_data h <> [] -> h <> [].
Proof. by destruct h. Qed.

(** ** What the seasonal adjustment touches *)

Section Adjustment.

Context `{SK : Sklearn}.
Import CostForecaster.

Lemma adjust_monthly_fdate (sp : SeasonalPatterns) (f : Forecast) :
  fdate (adjust_monthly sp f) = fdate f.
Proof.
  unfold adjust_monthly. destruct (monthly sp) as [mp|]; [|done].
  by destruct (mp !! KInt (month (fdate f))).
Qed.

Lemma adjust_all_fdate (sp : SeasonalPatterns) (fs : list Forecast) :
  fdate <$> adjust_all sp fs = fdate <$> fs.
Proof.
  induction fs as [|f fs IH]; [done|].
  cbn [adjust_all]. unfold adjust_one.
  destruct (quarterly sp); cbn; rewrite adjust_monthly_fdate; [done|].
  by rewrite IH.
Qed.

Lemma apply_seasonal_adjustments_fdate (fs : list Forecast) (an : Analysis) :
  fdate <$> _apply_seasonal_adjustments fs an = fdate <$> fs.
Proof.
  unfold _apply_seasonal_adjustments.
  destruct (seasonality an); [apply adjust_all_fdate|done].
Qed.

Lemma adjust_all_no_quarterly (sp : SeasonalPatterns) (fs : list Forecast) :
  quarterly sp = None -> adjust_all sp fs = adjust_monthly sp <$> fs.
Proof.
  intros Hq. induction fs as [|f fs IH]; [done|].
  cbn [adjust_all]. unfold adjust_one. rewrite Hq. cbn. by rewrite IH.
Qed.

(** With an analysis that has no [seasonality] entry the result carries
    the forecasts of the loop as they are. *)
Lemma generate_forecast_no_seasonality (self : t) (h : list Observation)
    (an : Analysis) (r : ForecastResult) :
  snd (generate_forecast self h an) = Some r ->
  exists st r0,
    raw_predictions (fst (generate_forecast self h an)) (_prepare_data h) = Some st /\
    snd (generate_forecast self h no_seasonality) = Some r0 /\
    forecasts r0 = acc_forecasts st /\
    confidence_intervals r0 = acc_intervals st.
Proof.
  intros H. destruct (generate_forecast_Some _ _ _ _ H) as (HL & Hself & Hgp).
  destruct (generate_predictions_Some _ _ _ _ Hgp) as (st & Hraw & _).
  exists st. rewrite Hself.
  revert HL Hraw. unfold generate_forecast. cbn zeta.
  generalize (create_features_length (_prepare_data h)).
  generalize (_prepare_data h) as df. intros df HX HL Hraw.
  destruct (_create_features df) as [X y] eqn:EXy. cbn [fst snd] in *.
  destruct df as [|row df'] eqn:Edf; [cbn in HL; lia|].
  rewrite <- Edf in *.
  destruct (length X =? 0)%nat eqn:E0; [apply Nat.eqb_eq in E0; lia|].
  cbn [snd]. unfold _generate_predictions. rewrite Hraw. cbn.
  eexists. split; [reflexivity|]. split; [reflexivity|]. done.
Qed.

End Adjustment.

(** ** Properties of a returned forecast *)

Section ForecastResults.

Context `{SK : Sklearn}.
Import CostForecaster.


Lemma returned_forecasts_length (self : t) (h : list Observation)
    (an : Analysis) (r : ForecastResult) :
  snd (generate_forecast self h an) = Some r ->
  length (forecasts r) = forecast_periods.
Proof.
  intros H.
  destruct (generate_forecast_trace _ _ _ _ H)
    as (st & sc & m & ld & _ & _ & _ & _ & _ & Hfs & _ & _ & Hf & _ & _).
  rewrite <- (length_fmap fdate), Hf, apply_seasonal_adjustments_fdate.
  rewrite Hfs, !length_fmap, length_seq. reflexivity.
Qed.

(** C5.  A returned result has exactly [forecast_periods] = 12 forecasts;
    forecast i lies in calendar month (last historical month) + i + 1, so
    the periods are contiguous and strictly increasing, starting right
    after the last month of the history. *)
Theorem forecast_periods_contiguous (self : t) (h : list Observation)
    (an : Analysis) (r : ForecastResult) :
  snd (generate_forecast self h an) = Some r ->
  length (forecasts r) = forecast_periods /\
  forecast_periods = 12%nat /\
  (exists last_date,
      last (frame_dates (_prepare_data h)) = Some last_date /\
      month_index last_date = last_month h) /\
  (forall (i : nat) (f : Forecast),
      forecasts r !! i = Some f ->
      month_index (fdate f) = last_month h + Z.of_nat i + 1 /\
      1 <= month (fdate f) <= 12) /\
  (forall (i : nat) (f g : Forecast),
      forecasts r !! i = Some f -> forecasts r !! S i = Some g ->
      month_index (fdate g) = month_index (fdate f) + 1).
Proof.
  intros H.
  destruct (generate_forecast_trace _ _ _ _ H)
    as (st & sc & m & ld & HL & _ & _ & Hld & _ & Hfs & _ & _ & Hf & _ & _).
  assert (Hh : h <> []).
  { apply prepare_data_nonempty. intros E. rewrite E in HL. cbn in HL. lia. }
  rewrite (prepare_data_last h Hh) in Hld. injection Hld as <-.
  assert (Hdates : forall i f, forecasts r !! i = Some f ->
            (i < forecast_periods)%nat /\
            fdate f = add_months (month_end (last_month h)) (Z.of_nat i + 1)).
  { intros i f Hi.
    assert (Hd : (fdate <$> forecasts r) !! i = Some (fdate f))
      by (rewrite list_lookup_fmap, Hi; reflexivity).
    rewrite Hf, apply_seasonal_adjustments_fdate, Hfs in Hd.
    rewrite <- list_fmap_compose, list_lookup_fmap in Hd.
    destruct (seq 0 forecast_periods !! i) as [k|] eqn:Ek; [|discriminate Hd].
    apply lookup_seq in Ek as [-> Hlt]. cbn in Hd. injection Hd as <-.
    split; [exact Hlt|reflexivity]. }
  split; [exact (returned_forecasts_length _ _ _ _ H)|].
  split; [reflexivity|].
  split.
  { exists (month_end (last_month h)). split.
    - apply prepare_data_last, Hh.
    - apply month_index_month_end. }
  split.
  - intros i f Hi. destruct (Hdates i f Hi) as [_ ->].
    rewrite month_index_add_months, month_index_month_end.
    split; [lia|apply month_add_months_range].
  - intros i f g Hi Hg.
    destruct (Hdates i f Hi) as [_ ->]. destruct (Hdates (S i) g Hg) as [_ ->].
    rewrite !month_index_add_months. lia.
Qed.

End ForecastResults.


Lemma forecast_periods_contiguous_witness :
  exists r,
    snd (CostForecaster.generate_forecast CostForecaster.init history6 june_analysis) = Some r /\
    length (forecasts r) = 12%nat.
Proof.
  assert (E : exists r, snd (CostForecaster.generate_forecast CostForecaster.init
                               history6 june_analysis) = Some r)
    by (vm_compute; eauto).
  destruct E as [r E]. exists r. split; [exact E|].
  exact (proj1 (forecast_periods_contiguous _ _ _ _ E)).
Defined.

(** ** Bands and seasonal adjustment *)

Section BandsAndAdjustment.

Context `{SK : Sklearn}.
Import CostForecaster.


(** C3, as the code has it.  With a monthly pattern and no [quarterly]
    entry in the seasonality, each point estimate is multiplied by
    (1 + monthly[month]) when its calendar month is a key of the pattern
    and is left as it is otherwise; the band bounds of every level stay
    those of the unadjusted forecast. *)
Theorem seasonal_adjustment_monthly_only (self : t) (h : list Observation)
    (an : Analysis) (r : ForecastResult) (sp : SeasonalPatterns)
    (mp : gmap Key Q) :
  snd (generate_forecast self h an) = Some r ->
  seasonality an = Some sp -> monthly sp = Some mp -> quarterly sp = None ->
  exists r0,
    snd (generate_forecast self h no_seasonality) = Some r0 /\
    confidence_intervals r = confidence_intervals r0 /\
    length (forecasts r) = length (forecasts r0) /\
    forall (i : nat) (f0 : Forecast),
      forecasts r0 !! i = Some f0 ->
      forecasts r !! i =
        Some {| fdate := fdate f0;
                forecast :=
                  match mp !! KInt (month (fdate f0)) with
                  | Some x => (forecast f0 * (1 + x))%Q
                  | None => forecast f0
                  end |}.
Proof.
  intros H Hs Hm Hq.
  destruct (generate_forecast_no_seasonality _ _ _ _ H)
    as (st & r0 & Hraw & Hr0 & Hf0 & Hci0).
  destruct (generate_forecast_trace _ _ _ _ H)
    as (st' & sc & m & ld & _ & _ & _ & _ & Hraw' & _ & _ & _ & Hf & Hci & _).
  rewrite Hraw in Hraw'. injection Hraw' as <-.
  exists r0. split; [exact Hr0|]. split; [congruence|].
  assert (E : forecasts r = adjust_monthly sp <$> forecasts r0).
  { rewrite Hf, Hf0. unfold _apply_seasonal_adjustments. rewrite Hs.
    by apply adjust_all_no_quarterly. }
  split; [by rewrite E, length_fmap|].
  intros i f0 Hi. rewrite E, list_lookup_fmap, Hi. cbn. f_equal.
  unfold adjust_monthly. rewrite Hm.
  destruct (mp !! KInt (month (fdate f0))); [reflexivity|by destruct f0].
Qed.


(** C2, the behaviour of the code.  A frame of four monthly rows or more
    whose model can be fitted yields a forecast: no check of
    [min_historical_months] is made on the way. *)
Theorem forecast_from_four_months (self : t) (h : list Observation)
    (an : Analysis) :
  (4 <= length (_prepare_data h))%nat ->
  is_Some (model (_train_model self (fst (_create_features (_prepare_data h)))
                                    (snd (_create_features (_prepare_data h))))) ->
  exists r, snd (generate_forecast self h an) = Some r /\
            length (forecasts r) = forecast_periods.
Proof.
  intros HL [m Hm].
  assert (E : exists r, snd (generate_forecast self h an) = Some r).
  { revert HL Hm. unfold generate_forecast. cbn zeta.
    generalize (create_features_length (_prepare_data h)).
    generalize (_prepare_data h) as df. intros df HX HL Hm.
    destruct (_create_features df) as [X y] eqn:EXy. cbn [fst snd] in *.
    destruct df as [|row df'] eqn:Edf; [cbn in HL; lia|].
    rewrite <- Edf in *.
    destruct (length X =? 0)%nat eqn:E0; [apply Nat.eqb_eq in E0; lia|].
    cbn [snd].
    destruct (raw_predictions_trace (_train_model self X y) df
                (scaler_fit X) m) as (st & ld & _ & Hraw & _);
      [ unfold _train_model;
        by destruct (model_fit (map (scaler_transform (scaler_fit X)) X) y)
      | exact Hm | lia | ].
    unfold _generate_predictions. rewrite Hraw. cbn. eauto. }
  destruct E as [r E]. exists r. split; [exact E|].
  exact (returned_forecasts_length _ _ _ _ E).
Qed.

End BandsAndAdjustment.

(** ** Concrete runs *)



(** Same run: the point estimate of the twelfth period is scaled by 1.5,
    the upper bound of its 95% band is not. *)
Lemma band_bounds_not_scaled :
  exists (r r0 : ForecastResult) (f f0 : Forecast) (ivs ivs0 : list Interval)
         (iv iv0 : Interval),
    snd (CostForecaster.generate_forecast CostForecaster.init history6 june_analysis)
      = Some r /\
    snd (CostForecaster.generate_forecast CostForecaster.init history6 no_seasonality)
      = Some r0 /\
    forecasts r !! 11%nat = Some f /\ forecasts r0 !! 11%nat = Some f0 /\
    month (fdate f) = 6 /\
    (forecast f == forecast f0 * (1 + (1 # 2)))%Q /\
    ((95 # 100)%Q, ivs) ∈ confidence_intervals r /\
    ((95 # 100)%Q, ivs0) ∈ confidence_intervals r0 /\
    ivs !! 11%nat = Some iv /\ ivs0 !! 11%nat = Some iv0 /\
    ~ (upper iv == upper iv0 * (1 + (1 # 2)))%Q /\
    ~ (lower iv == lower iv0 * (1 + (1 # 2)))%Q.
Proof.
  eexists _, _, _, _, _, _, _, _.
  split; [vm_compute; reflexivity|]. split; [vm_compute; reflexivity|].
  split; [reflexivity|]. split; [reflexivity|]. split; [reflexivity|].
  split; [reflexivity|].
  split; [apply list_elem_of_here|]. split; [apply list_elem_of_here|].
  split; [reflexivity|]. split; [reflexivity|].
  split; unfold Qeq; cbn; lia.
Qed.

Lemma seasonal_adjustment_monthly_only_witness :
  exists r r0,
    snd (CostForecaster.generate_forecast CostForecaster.init history6 june_analysis)
      = Some r /\
    snd (CostForecaster.generate_forecast CostForecaster.init history6 no_seasonality)
      = Some r0 /\
    length (forecasts r) = length (forecasts r0).
Proof.
  assert (E : exists r, snd (CostForecaster.generate_forecast CostForecaster.init
                               history6 june_analysis) = Some r)
    by (vm_compute; eauto).
  destruct E as [r E].
  destruct (seasonal_adjustment_monthly_only _ _ _ _ _ _ E eq_refl eq_refl eq_refl)
    as (r0 & H0 & _ & HL & _).
  exists r, r0. split; [exact E|]. split; [exact H0|exact HL].
Defined.

(** Five months of history, fewer than [min_historical_months]: a forecast
    of twelve periods is returned. *)
Lemma forecast_from_four_months_witness :
  (length (observed_months history5) < CostForecastAnalyzer.min_historical_months)%nat /\
  exists r,
    snd (CostForecaster.generate_forecast CostForecaster.init history5 no_seasonality)
      = Some r /\
    length (forecasts r) = 12%nat.
Proof.
  split; [vm_compute; lia|].
  apply (forecast_from_four_months CostForecaster.init history5 no_seasonality).
  - vm_compute. lia.
  - vm_compute. eauto.
Defined.

(** ** Rounding *)







(** ** Sums *)

Lemma fold_Qplus_acc (l : list Q) (a : Q) :
  (fold_left Qplus l a == a + fold_left Qplus l 0)%Q.
Proof.
  revert a. induction l as [|x l IH]; intros a; cbn.
  - ring.
  - rewrite (IH (a + x)%Q), (IH (0 + x)%Q). ring.
Qed.

Lemma Qsum_cons (x : Q) (l : list Q) : (Qsum (x :: l) == x + Qsum l)%Q.
Proof.
  unfold Qsum. cbn. rewrite fold_Qplus_acc. ring.
Qed.

Lemma Qsum_nonneg (l : list Q) :
  Forall (fun x => (0 <= x)%Q) l -> (0 <= Qsum l)%Q.
Proof.
  induction 1 as [|x l Hx _ IH]; [apply Qle_refl|].
  rewrite Qsum_cons. lra.
Qed.



Lemma fold_np_add_Fin (qs : list Q) (a : Q) :
  fold_left np_add (Fin <$> qs) (Fin a) = Fin (fold_left Qplus qs a).
Proof.
  revert a. induction qs as [|q qs IH]; intros a; [reflexivity|].
  cbn. apply IH.
Qed.

Lemma pd_sum_Fin (qs : list Q) : pd_sum (Fin <$> qs) = Fin (Qsum qs).
Proof.
  unfold pd_sum.
  assert (E : filter (fun x => is_nan x = false) (Fin <$> qs) = Fin <$> qs).
  { induction qs as [|q qs IH]; [reflexivity|].
    cbn [fmap list_fmap]. rewrite filter_cons_True by reflexivity.
    f_equal. exact IH. }
  rewrite E. apply fold_np_add_Fin.
Qed.


(** ** Cost drivers *)



Lemma string_compare_refl (s : string) : String.compare s s = Eq.
Proof.
  destruct (String.compare s s) eqn:E; [reflexivity| |];
    pose proof (String.compare_antisym s s) as A; rewrite E in A; discriminate A.
Qed.


Section CostConcentration.

Import CostForecastAnalyzer.

Lemma Qeq_bool_false (x y : Q) : ~ (x == y)%Q -> Qeq_bool x y = false.
Proof.
  intros H. destruct (Qeq_bool x y) eqn:E; [|reflexivity].
  apply Qeq_bool_iff in E. contradiction.
Qed.






End CostConcentration.



(** ** Zero denominators *)

Lemma np_div_zero_divisor (x : npfloat) (b : Q) :
  (b == 0)%Q -> is_finite (np_div x (Fin b)) = false.
Proof.
  intros Hb. apply Qeq_bool_iff in Hb.
  destruct x as [a| | |]; cbn; rewrite ?Hb; try reflexivity.
  unfold signed_inf. destruct (Qsgn a =? 0); [reflexivity|].
  destruct (0 <? Qsgn a); reflexivity.
Qed.

Section ZeroDenominators.

Context `{SK : Sklearn}.
Import CostForecaster CostForecastAnalyzer.

Lemma level_metrics_inv (vals : list Q) (ci : list (Q * list Interval))
    (level : Q) (lum : Q * UncertaintyMetrics) :
  level_metrics vals ci level = Some lum ->
  fst lum = level /\
  relative_uncertainty (snd lum) =
    np_div (Fin (average_range (snd lum))) (Fin (np_mean vals)).
Proof.
  unfold level_metrics. intros H.
  destruct (ci_lookup level ci) as [ivs|]; [|discriminate H]. cbn in H.
  destruct (last _); [|discriminate H]. cbn in H.
  destruct (head _); [|discriminate H]. cbn in H.
  injection H as <-. done.
Qed.

(** What a metrics dictionary that was computed contains. *)
Lemma calculate_forecast_metrics_inv (fs : list Forecast)
    (ci : list (Q * list Interval)) (mt : Metrics) :
  _calculate_forecast_metrics fs ci = Some mt ->
  exists v_last v_first,
    last (map forecast fs) = Some v_last /\
    head (map forecast fs) = Some v_first /\
    forecast_growth mt = np_div (Fin (v_last - v_first)) (Fin v_first) /\
    forecast_trend mt = trend_of v_last v_first /\
    average_monthly_forecast mt = np_mean (map forecast fs) /\
    fst <$> uncertainty_metrics mt = confidence_levels /\
    Forall (fun lum => relative_uncertainty (snd lum) =
                         np_div (Fin (average_range (snd lum)))
                                (Fin (np_mean (map forecast fs))))
           (uncertainty_metrics mt).
Proof.
  unfold _calculate_forecast_metrics. intros H.
  destruct (last (map forecast fs)) as [vl|]; [|discriminate H].
  cbn [mbind option_bind] in H.
  destruct (head (map forecast fs)) as [vf|]; [|discriminate H].
  cbn [mbind option_bind] in H.
  destruct (mapM (level_metrics (map forecast fs) ci) confidence_levels)
    as [um|] eqn:Eum; [|discriminate H].
  cbn [mbind option_bind] in H. injection H as <-. exists vl, vf.
  cbn [forecast_growth forecast_trend average_monthly_forecast uncertainty_metrics].
  repeat (split; [reflexivity|]).
  apply mapM_Some_1 in Eum.
  induction Eum as [|level lum levels ums Hl _ [IH1 IH2]]; [by split|].
  destruct (level_metrics_inv _ _ _ _ Hl) as [E1 E2].
  split; [cbn; by rewrite E1, IH1|]. by constructor.
Qed.

Lemma head_is_Some {A : Type} (l : list A) :
  (0 < length l)%nat -> is_Some (head l).
Proof. destruct l; cbn; [lia|eauto]. Qed.

Lemma level_metrics_total (vals : list Q) (a b c : list Interval) (level : Q) :
  level ∈ confidence_levels ->
  (0 < length a)%nat -> (0 < length b)%nat -> (0 < length c)%nat ->
  is_Some (level_metrics vals
             [((95 # 100)%Q, a); ((80 # 100)%Q, b); ((50 # 100)%Q, c)] level).
Proof.
  intros Hin Ha Hb Hc. unfold level_metrics.
  assert (T : forall ivs : list Interval, (0 < length ivs)%nat ->
            is_Some (last (map (fun i => upper i - lower i)%Q ivs)) /\
            is_Some (head (map (fun i => upper i - lower i)%Q ivs))).
  { intros ivs Hivs. split; [apply last_is_Some|apply head_is_Some];
      by rewrite length_map. }
  set (ci := [((95 # 100)%Q, a); ((80 # 100)%Q, b); ((50 # 100)%Q, c)]).
  assert (E95 : ci_lookup (95 # 100)%Q ci = Some a) by reflexivity.
  assert (E80 : ci_lookup (80 # 100)%Q ci = Some b) by reflexivity.
  assert (E50 : ci_lookup (50 # 100)%Q ci = Some c) by reflexivity.
  unfold confidence_levels in Hin.
  repeat (apply elem_of_cons in Hin as [->|Hin]);
    [| | |by apply elem_of_nil in Hin].
  - rewrite E95. cbn [mbind option_bind].
    destruct (T a Ha) as [[? ->] [? ->]]. cbn [mbind option_bind]. eauto.
  - rewrite E80. cbn [mbind option_bind].
    destruct (T b Hb) as [[? ->] [? ->]]. cbn [mbind option_bind]. eauto.
  - rewrite E50. cbn [mbind option_bind].
    destruct (T c Hc) as [[? ->] [? ->]]. cbn [mbind option_bind]. eauto.
Qed.

(** The metrics of a returned forecast are always computed. *)
Lemma returned_metrics_total (self : t) (h : list Observation) (an : Analysis)
    (r : ForecastResult) :
  snd (generate_forecast self h an) = Some r -> is_Some (metrics r).
Proof.
  intros H.
  pose proof (returned_forecasts_length _ _ _ _ H) as HL.
  destruct (generate_forecast_trace _ _ _ _ H)
    as (st & sc & m & ld & _ & _ & _ & _ & _ & Hfs & _ & Hb & _ & _ & Hm).
  rewrite Hm. destruct Hb as (a & b & c & -> & Ha & Hb & Hc).
  apply Forall2_length in Ha, Hb, Hc.
  rewrite Hfs, length_fmap, length_seq in Ha, Hb, Hc.
  unfold forecast_periods in *.
  unfold _calculate_forecast_metrics.
  destruct (last_is_Some (map forecast (forecasts r))) as [vl ->];
    [rewrite length_map; lia|].
  destruct (head_is_Some (map forecast (forecasts r))) as [vf ->];
    [rewrite length_map; lia|].
  cbn [mbind option_bind].
  destruct (mapM (level_metrics (map forecast (forecasts r))
                    [((95 # 100)%Q, a); ((80 # 100)%Q, b); ((50 # 100)%Q, c)])
                 confidence_levels) as [um|] eqn:Eum; [cbn; eauto|].
  apply mapM_None_1, Exists_exists in Eum. destruct Eum as (level & Hin & Hnone).
  destruct (level_metrics_total (map forecast (forecasts r)) a b c level Hin)
    as [x Hx]; [lia|lia|lia|].
  rewrite Hx in Hnone. discriminate Hnone.
Qed.

Lemma omap_nonempty {A B : Type} (f : A -> option B) (l : list A) (x : A) (y : B) :
  x ∈ l -> f x = Some y -> omap f l <> [].
Proof.
  intros Hx Hy E.
  assert (Hin : y ∈ omap f l) by (apply list_elem_of_omap; eauto).
  rewrite E in Hin. by apply elem_of_nil in Hin.
Qed.

Lemma groupby_month_mean_nonempty (md : MonthlyFrame) :
  md <> [] -> Forall (fun row => 1 <= month (fst row) <= 12) md ->
  groupby_month_mean md <> [].
Proof.
  intros Hne Hv. destruct md as [|row md]; [done|].
  inversion Hv as [|? ? Hrow _]; subst.
  unfold groupby_month_mean.
  eapply (omap_nonempty _ _ (month (fst row))).
  - apply elem_of_seqZ. lia.
  - cbn beta. unfold MonthlyFrame. rewrite filter_cons_True by reflexivity. reflexivity.
Qed.

(** C4, as the code has it.  A zero denominator neither raises nor aborts
    the analysis: the seasonality of a non-empty monthly series and the
    metrics of a returned forecast are always computed.  But the quotient
    is not replaced by 0: the monthly seasonal variation (mean of the
    monthly averages 0), the forecast growth (first forecast 0) and every
    relative uncertainty (mean forecast 0) are then non-finite values, and
    the trend label is "increasing" or "decreasing". *)
Theorem zero_denominator_not_finite (np_sqrt : Q -> Q) (md : MonthlyFrame)
    (self : t) (h : list Observation) (an : Analysis) (r : ForecastResult) :
  md <> [] -> Forall (fun row => 1 <= month (fst row) <= 12) md ->
  snd (generate_forecast self h an) = Some r ->
  (exists s,
      _calculate_monthly_seasonality np_sqrt md = Some s /\
      ((np_mean (map snd (groupby_month_mean md)) == 0)%Q ->
       is_finite (seasonal_variation s) = false)) /\
  (exists mt,
      metrics r = Some mt /\
      (forall f, head (forecasts r) = Some f -> (forecast f == 0)%Q ->
                 is_finite (forecast_growth mt) = false) /\
      ((average_monthly_forecast mt == 0)%Q ->
       forall level um, (level, um) ∈ uncertainty_metrics mt ->
                        is_finite (relative_uncertainty um) = false) /\
      fst <$> uncertainty_metrics mt = confidence_levels /\
      (forecast_trend mt = "increasing"%string \/
       forecast_trend mt = "decreasing"%string)).
Proof.
  intros Hne Hv H. split.
  - pose proof (groupby_month_mean_nonempty md Hne Hv) as Hg.
    unfold _calculate_monthly_seasonality.
    destruct (groupby_month_mean md) as [|kv g]; [done|].
    cbn [idxmax idxmin mbind option_bind].
    eexists. split; [reflexivity|]. cbn [seasonal_variation].
    intros Hz. by apply np_div_zero_divisor.
  - destruct (returned_metrics_total _ _ _ _ H) as [mt Hmt].
    exists mt. split; [exact Hmt|].
    destruct (generate_forecast_trace _ _ _ _ H)
      as (st & _ & _ & _ & _ & _ & _ & _ & _ & _ & _ & _ & _ & _ & Hm).
    rewrite Hm in Hmt.
    destruct (calculate_forecast_metrics_inv _ _ _ Hmt)
      as (vl & vf & _ & Hhead & Hgrowth & Htrend & Havg & Hlevels & Hrel).
    split; [|split; [|split; [exact Hlevels|]]].
    + intros f Hf Hf0. rewrite Hgrowth.
      apply np_div_zero_divisor.
      destruct (forecasts r) as [|f' fs']; [discriminate Hf|].
      cbn in Hf, Hhead. injection Hf as ->. injection Hhead as <-. exact Hf0.
    + intros Hz level um Hin. rewrite Havg in Hz.
      pose proof (proj1 (Forall_forall _ _) Hrel _ Hin) as E. cbn [snd] in E.
      rewrite E. by apply np_div_zero_divisor.
    + rewrite Htrend. unfold trend_of. destruct (Qgtb vl vf); [by left|by right].
Qed.

End ZeroDenominators.

(** A history without cost: the analysis and the forecast are returned, with
    [nan] as seasonal variation, forecast growth and relative uncertainty
    (the stand-in for the square root is only applied to 0). *)
Lemma zero_history_gives_nan :
  exists (s : CostForecastAnalyzer.MonthlySeasonality) (r : ForecastResult)
         (mt : Metrics) (um : UncertaintyMetrics),
    CostForecastAnalyzer._calculate_monthly_seasonality (fun x => x)
      (_prepare_data history_zero) = Some s /\
    CostForecastAnalyzer.seasonal_variation s = NaN /\
    snd (CostForecaster.generate_forecast CostForecaster.init history_zero no_seasonality)
      = Some r /\
    metrics r = Some mt /\
    forecast_growth mt = NaN /\
    uncertainty_metrics mt !! 0%nat = Some ((95 # 100)%Q, um) /\
    relative_uncertainty um = NaN /\
    NaN <> Fin 0.
Proof.
  eexists _, _, _, _.
  split; [vm_compute; reflexivity|]. split; [reflexivity|].
  split; [vm_compute; reflexivity|]. split; [reflexivity|].
  split; [reflexivity|]. split; [reflexivity|]. split; [reflexivity|].
  discriminate.
Qed.

Lemma zero_denominator_not_finite_witness :
  exists (s : CostForecastAnalyzer.MonthlySeasonality) (mt : Metrics),
    CostForecastAnalyzer._calculate_monthly_seasonality (fun x => x)
      (_prepare_data history_zero) = Some s /\
    is_finite (CostForecastAnalyzer.seasonal_variation s) = false /\
    is_finite (forecast_growth mt) = false.
Proof.
  assert (E : exists r, snd (CostForecaster.generate_forecast CostForecaster.init
                               history_zero no_seasonality) = Some r)
    by (vm_compute; eauto).
  destruct E as [r E].
  destruct (zero_denominator_not_finite (fun x => x) (_prepare_data history_zero)
              CostForecaster.init history_zero no_seasonality r)
    as ((s & Hs & Hvar) & (mt & Hmt & Hgrowth & _)).
  - vm_compute. discriminate.
  - repeat constructor; vm_compute; discriminate.
  - exact E.
  - exists s, mt. split; [exact Hs|]. split.
    + apply Hvar. vm_compute. reflexivity.
    + destruct (head (forecasts r)) as [f|] eqn:Ef.
      * apply (Hgrowth f eq_refl).
        revert Ef. revert E. vm_compute. intros E Ef.
        injection E as <-. injection Ef as <-. reflexivity.
      * revert Ef. revert E. vm_compute. intros E Ef.
        injection E as <-. discriminate Ef.
Defined.

(** ** The dictionaries that the analyzer produces *)

Section AnalyzerPatterns.

Context `{SK : Sklearn}.
Import CostForecaster.

(** The [monthly] dictionary of the analyzer has the field names
    [highest_cost_month], [lowest_cost_month] and [seasonal_variation] as
    keys, and [quarterly] is always present: with such an analysis no month
    number is a key, the first [date.quarter] raises, and the forecasts are
    left as they were. *)
Lemma analyzer_patterns_adjust_nothing (sp : SeasonalPatterns) (mp : gmap Key Q)
    (fs : list Forecast) :
  monthly sp = Some mp -> (forall z : Z, mp !! KInt z = None) ->
  is_Some (quarterly sp) ->
  adjust_all sp fs = fs.
Proof.
  intros Hm Hkeys [qp Hq]. destruct fs as [|f fs]; [reflexivity|].
  cbn [adjust_all]. unfold adjust_one, adjust_monthly.
  rewrite Hq, Hm, Hkeys. reflexivity.
Qed.

(** Whatever the monthly pattern holds, a [quarterly] entry stops the
    adjustment after the first forecast. *)
Lemma quarterly_entry_stops_adjustment (sp : SeasonalPatterns) (f : Forecast)
    (fs : list Forecast) :
  is_Some (quarterly sp) ->
  adjust_all sp (f :: fs) = adjust_monthly sp f :: fs.
Proof.
  intros [qp Hq]. cbn [adjust_all]. unfold adjust_one. rewrite Hq. reflexivity.
Qed.

End AnalyzerPatterns.

(** * Further properties of the forecaster *)

Section ForecasterEdges.

Context `{SK : Sklearn}.
Import CostForecaster.

Lemma generate_forecast_trained (self : t) (h : list Observation) (an : Analysis) :
  (4 <= length (_prepare_data h))%nat ->
  generate_forecast self h an =
    (_train_model self (fst (_create_features (_prepare_data h)))
                       (snd (_create_features (_prepare_data h))),
     _generate_predictions
       (_train_model self (fst (_create_features (_prepare_data h)))
                          (snd (_create_features (_prepare_data h))))
       (_prepare_data h) an).
Proof.
  unfold generate_forecast. cbn zeta.
  generalize (create_features_length (_prepare_data h)).
  generalize (_prepare_data h) as df. intros df HX HL.
  destruct (_create_features df) as [X y] eqn:EXy. cbn [fst snd] in *.
  destruct df as [|row df'] eqn:Edf; [cbn in HL; lia|].
  rewrite <- Edf in *.
  destruct (length X =? 0)%nat eqn:E0; [apply Nat.eqb_eq in E0; lia|].
  reflexivity.
Qed.

(** X1.  A history that spans at most three calendar months (the empty history
    included) gives no training example: [generate_forecast] returns [None]
    and leaves the scaler and the model of the object as they were. *)
Theorem short_history_returns_none (self : t) (h : list Observation) (an : Analysis) :
  (length (_prepare_data h) <= 3)%nat ->
  generate_forecast self h an = (self, None).
Proof.
  unfold generate_forecast. cbn zeta.
  generalize (create_features_length (_prepare_data h)).
  generalize (_prepare_data h) as df. intros df HX HL.
  destruct (_create_features df) as [X y] eqn:EXy. cbn [fst snd] in *.
  destruct df as [|row df']; [reflexivity|].
  destruct (length X =? 0)%nat eqn:E0; [reflexivity|].
  apply Nat.eqb_neq in E0. lia.
Qed.

(** X2.  When the split or the fit raises on a forecaster that was never fitted,
    the call returns [None]; the scaler has been fitted on the way and stays
    so, the model stays unfitted. *)
Theorem failed_fit_on_fresh_forecaster (self : t) (h : list Observation)
    (an : Analysis) :
  let df := _prepare_data h in
  let X := fst (_create_features df) in
  let y := snd (_create_features df) in
  (4 <= length df)%nat ->
  model self = None ->
  model_fit (map (scaler_transform (scaler_fit X)) X) y = None ->
  generate_forecast self h an =
    ({| scaler := Some (scaler_fit X); model := None |}, None).
Proof.
  intros df X y HL Hm Hfit.
  rewrite (generate_forecast_trained self h an HL). fold df X y.
  unfold _train_model. rewrite Hfit, Hm. f_equal.
  unfold _generate_predictions, raw_predictions. cbn [scaler model].
  by destruct (last (frame_dates df)).
Qed.

(** X3.  When the split or the fit raises on a forecaster whose model was
    fitted by an earlier call, the exception is swallowed and a forecast is
    returned all the same: it is predicted by the old model, on features
    scaled by the scaler fitted on the new history. *)
Theorem failed_fit_reuses_stale_model (self : t) (h : list Observation)
    (an : Analysis) (m : Model) :
  let df := _prepare_data h in
  let X := fst (_create_features df) in
  let y := snd (_create_features df) in
  (4 <= length df)%nat ->
  model self = Some m ->
  model_fit (map (scaler_transform (scaler_fit X)) X) y = None ->
  exists (r : ForecastResult) (st : LoopState) (last_date : Date),
    generate_forecast self h an =
      ({| scaler := Some (scaler_fit X); model := Some m |}, Some r) /\
    last (frame_dates df) = Some last_date /\
    forecasts r = _apply_seasonal_adjustments (acc_forecasts st) an /\
    acc_forecasts st =
      (fun k => {| fdate := add_months last_date (Z.of_nat k + 1);
                   forecast :=
                     point_estimate (scaler_fit X) m last_date
                       (rolling_window (scaler_fit X) m last_date
                          (iloc_last3 (frame_costs df)) k) k |})
        <$> seq 0 forecast_periods.
Proof.
  intros df X y HL Hm Hfit.
  rewrite (generate_forecast_trained self h an HL). fold df X y.
  unfold _train_model. rewrite Hfit, Hm.
  destruct (raw_predictions_trace {| scaler := Some (scaler_fit X); model := Some m |}
              df (scaler_fit X) m eq_refl eq_refl ltac:(lia))
    as (st & ld & Hld & Hraw & _ & Hfs & _).
  unfold _generate_predictions. rewrite Hraw. cbn [mbind option_bind].
  eexists _, st, ld. split; [reflexivity|].
  split; [exact Hld|]. split; [reflexivity|exact Hfs].
Qed.

End ForecasterEdges.

Lemma short_history_returns_none_witness :
  (length (observed_months history_gap) = 2)%nat /\
  CostForecaster.generate_forecast stale_forecaster history_gap june_analysis =
    (stale_forecaster, None).
Proof.
  split; [reflexivity|].
  apply (short_history_returns_none stale_forecaster history_gap june_analysis).
  vm_compute. lia.
Defined.

Lemma failed_fit_on_fresh_forecaster_witness :
  CostForecaster.generate_forecast CostForecaster.init history4 no_seasonality =
    (CostForecaster.mk (Some tt) None, None).
Proof.
  exact (failed_fit_on_fresh_forecaster CostForecaster.init history4 no_seasonality
           ltac:(vm_compute; lia) eq_refl eq_refl).
Defined.

(** Four months of history with costs 100..130 on a forecaster whose model
    predicts 500: the forecast is 500. *)
Lemma failed_fit_reuses_stale_model_witness :
  exists r f,
    snd (CostForecaster.generate_forecast stale_forecaster history4 no_seasonality)
      = Some r /\
    forecasts r !! 0%nat = Some f /\ (forecast f == 500)%Q.
Proof.
  destruct (failed_fit_reuses_stale_model stale_forecaster history4 no_seasonality
              500%Q ltac:(vm_compute; lia) eq_refl eq_refl)
    as (r & st & ld & E & _ & Hf & Hfs).
  exists r. rewrite E. cbn [snd].
  rewrite Hf, Hfs. eexists. split; [reflexivity|]. split; [reflexivity|].
  vm_compute. reflexivity.
Defined.


(** ** The monthly frame *)

Lemma Qsum_map_zero {A : Type} (l : list A) : (Qsum (map (fun _ => 0%Q) l) == 0)%Q.
Proof.
  induction l as [|x l IH]; [reflexivity|].
  cbn [map]. rewrite Qsum_cons, IH. ring.
Qed.

Lemma Qsum_map_plus {A : Type} (f g : A -> Q) (l : list A) :
  (Qsum (map (fun x => f x + g x) l) == Qsum (map f l) + Qsum (map g l))%Q.
Proof.
  induction l as [|x l IH]; [reflexivity|].
  cbn [map]. rewrite !Qsum_cons, IH. ring.
Qed.

Lemma Qsum_map_Qeq {A : Type} (f g : A -> Q) (l : list A) :
  (forall x, x ∈ l -> (f x == g x)%Q) -> (Qsum (map f l) == Qsum (map g l))%Q.
Proof.
  intros E. induction l as [|x l IH]; [reflexivity|].
  cbn [map]. rewrite !Qsum_cons, IH, (E x).
  - reflexivity.
  - apply list_elem_of_here.
  - intros x' Hx'. apply E. by apply list_elem_of_further.
Qed.

(** One cost counted in the bin of its own month. *)
Lemma Qsum_month_indicator (x : Z) (c : Q) (l : list Z) :
  NoDup l -> x ∈ l ->
  (Qsum (map (fun k => if decide (x = k) then c else 0%Q) l) == c)%Q.
Proof.
  induction 1 as [|k l Hk Hl IH]; intros Hx; [by apply elem_of_nil in Hx|].
  cbn [map]. rewrite Qsum_cons.
  destruct (decide (x = k)) as [->|Hne].
  - rewrite (Qsum_map_Qeq _ (fun _ => 0%Q)).
    + rewrite Qsum_map_zero. ring.
    + intros k' Hk'. destruct (decide (k = k')) as [<-|]; [contradiction|reflexivity].
  - apply elem_of_cons in Hx as [->|Hx]; [done|].
    rewrite (IH Hx). ring.
Qed.

Lemma month_total_cons (o : Observation) (h : list Observation) (k : Z) :
  (month_total (o :: h) k ==
   (if decide (month_index (date o) = k) then cost o else 0) + month_total h k)%Q.
Proof.
  unfold month_total. rewrite filter_cons.
  destruct (decide (month_index (date o) = k)).
  - cbn [map]. apply Qsum_cons.
  - ring.
Qed.

(** Binning by month loses no cost when the bins cover every observed
    month once. *)
Lemma month_totals_conserve (h : list Observation) (bins : list Z) :
  NoDup bins ->
  (forall o, o ∈ h -> month_index (date o) ∈ bins) ->
  (Qsum (map (month_total h) bins) == Qsum (map cost h))%Q.
Proof.
  intros Hnd. induction h as [|o h IH]; intros Hin.
  - cbn [map]. rewrite (Qsum_map_Qeq _ (fun _ => 0%Q)); [apply Qsum_map_zero|].
    intros k _. reflexivity.
  - cbn [map]. rewrite Qsum_cons.
    rewrite (Qsum_map_Qeq _ (fun k =>
               (if decide (month_index (date o) = k) then cost o else 0)
               + month_total h k)%Q)
      by (intros k _; apply month_total_cons).
    rewrite Qsum_map_plus, Qsum_month_indicator, IH.
    + reflexivity.
    + intros o' Ho'. apply Hin. by apply list_elem_of_further.
    + exact Hnd.
    + apply Hin. apply list_elem_of_here.
Qed.

Lemma fold_min_lower (a : Z) (l : list Z) (x : Z) :
  x ∈ l -> fold_right Z.min a l <= x.
Proof.
  induction l as [|y l IH]; intros Hx; [by apply elem_of_nil in Hx|].
  cbn. apply elem_of_cons in Hx as [->|Hx]; [lia|]. specialize (IH Hx). lia.
Qed.

Lemma fold_max_upper (a : Z) (l : list Z) (x : Z) :
  x ∈ l -> x <= fold_right Z.max a l.
Proof.
  induction l as [|y l IH]; intros Hx; [by apply elem_of_nil in Hx|].
  cbn. apply elem_of_cons in Hx as [->|Hx]; [lia|]. specialize (IH Hx). lia.
Qed.

Lemma observed_month_in_range (h : list Observation) (o : Observation) :
  o ∈ h -> first_month h <= month_index (date o) <= last_month h.
Proof.
  intros Ho. destruct h as [|o0 r]; [by apply elem_of_nil in Ho|].
  unfold first_month, last_month.
  apply elem_of_cons in Ho as [->|Ho].
  - split; [apply fold_min_le|apply fold_max_ge].
  - assert (Hin : month_index (date o) ∈ map (fun x => month_index (date x)) r).
    { apply list_elem_of_In.
      apply (in_map (fun x => month_index (date x))).
      apply list_elem_of_In, Ho. }
    split; [by apply fold_min_lower|by apply fold_max_upper].
Qed.

Lemma days_in_month_bounds (y m : Z) : 28 <= days_in_month y m <= 31.
Proof.
  unfold days_in_month.
  destruct (m =? 2); [destruct (is_leap y); lia|].
  destruct ((m =? 4) || (m =? 6) || (m =? 9) || (m =? 11)); lia.
Qed.

Lemma month_end_valid (k : Z) :
  valid_date (month_end k) /\
  day (month_end k) = days_in_month (year (month_end k)) (month (month_end k)).
Proof.
  unfold valid_date, month_end. cbn [year month day].
  pose proof (Z.mod_pos_bound k 12 ltac:(lia)).
  pose proof (days_in_month_bounds (k / 12) (k mod 12 + 1)). lia.
Qed.

Lemma month_total_unobserved (h : list Observation) (k : Z) :
  (forall o, o ∈ h -> month_index (date o) <> k) -> month_total h k = 0%Q.
Proof.
  intros Hnone. unfold month_total.
  assert (E : filter (fun o => month_index (date o) = k) h = []).
  { induction h as [|o h IH]; [reflexivity|].
    rewrite filter_cons_False by (apply Hnone, list_elem_of_here).
    apply IH. intros o' Ho'. apply Hnone. by apply list_elem_of_further. }
  rewrite E. reflexivity.
Qed.

(** X4.  [_prepare_data] on a non-empty history: one row per calendar month
    from the first observed month to the last, in order and without gap;
    row [i] is labelled with the last day of month [first + i] and holds
    the sum of the costs observed in that month, which is 0 for a month
    without observation. *)
Theorem prepare_data_monthly_rows (h : list Observation) :
  h <> [] ->
  let df := _prepare_data h in
  length df = Z.to_nat (last_month h - first_month h + 1) /\
  (1 <= length df)%nat /\
  (forall i : nat, (i < length df)%nat ->
     exists d c,
       df !! i = Some (d, c) /\
       month_index d = first_month h + Z.of_nat i /\
       valid_date d /\ day d = days_in_month (year d) (month d) /\
       c = month_total h (first_month h + Z.of_nat i) /\
       ((forall o, o ∈ h -> month_index (date o) <> first_month h + Z.of_nat i) ->
        c = 0%Q)).
Proof.
  intros Hh df. pose proof (first_month_le_last_month h) as Hle.
  pose proof (prepare_data_length h Hh) as HL. fold df in HL.
  split; [exact HL|]. split; [lia|].
  intros i Hi. rewrite HL in Hi. clear HL. subst df.
  destruct h as [|o r]; [done|].
  set (lo := first_month (o :: r)) in *. set (hi := last_month (o :: r)) in *.
  assert (E : _prepare_data (o :: r) !! i =
              Some (month_end (lo + Z.of_nat i), month_total (o :: r) (lo + Z.of_nat i))).
  { unfold _prepare_data. fold lo hi.
    change (map ?f ?l) with (f <$> l). unfold MonthlyFrame.
    rewrite list_lookup_fmap, (lookup_seqZ_lt lo (hi - lo + 1) i) by lia.
    reflexivity. }
  eexists _, _. split; [exact E|].
  split; [apply month_index_month_end|].
  destruct (month_end_valid (lo + Z.of_nat i)) as [Hv Hd].
  split; [exact Hv|]. split; [exact Hd|]. split; [reflexivity|].
  apply month_total_unobserved.
Qed.

(** X5.  The monthly costs of the frame add up to the costs of all
    observations. *)
Theorem prepare_data_conserves_total (h : list Observation) :
  (Qsum (frame_costs (_prepare_data h)) == Qsum (map cost h))%Q.
Proof.
  destruct h as [|o r] eqn:Eh; [reflexivity|]. rewrite <- Eh.
  assert (Hh : h <> []) by (rewrite Eh; discriminate).
  pose proof (first_month_le_last_month h) as Hle.
  assert (E : frame_costs (_prepare_data h) =
              map (month_total h)
                  (seqZ (first_month h) (last_month h - first_month h + 1))).
  { unfold frame_costs, _prepare_data. rewrite Eh at 1.
    rewrite map_map. reflexivity. }
  rewrite E. apply month_totals_conserve.
  - apply NoDup_seqZ.
  - intros o' Ho'. apply elem_of_seqZ.
    pose proof (observed_month_in_range h o' Ho'). lia.
Qed.

Lemma prepare_data_monthly_rows_witness :
  exists d c,
    _prepare_data history_gap !! 1%nat = Some (d, c) /\
    month_index d = first_month history_gap + 1 /\ c = 0%Q.
Proof.
  destruct (prepare_data_monthly_rows history_gap ltac:(discriminate))
    as (_ & _ & H).
  destruct (H 1%nat ltac:(vm_compute; lia)) as (d & c & E & Hm & _ & _ & _ & H0).
  exists d, c. split; [exact E|]. split; [exact Hm|].
  apply H0. intros o Ho.
  repeat (apply elem_of_cons in Ho as [->|Ho]; [vm_compute; discriminate|]).
  by apply elem_of_nil in Ho.
Defined.

(** ** Dates, metrics and adjustment of a returned forecast *)

Lemma add_months_valid (d : Date) (n : Z) :
  1 <= day d -> valid_date (add_months d n).
Proof.
  intros Hd. unfold valid_date, add_months. cbn [year month day].
  pose proof (Z.mod_pos_bound (month_index d + n) 12 ltac:(lia)).
  pose proof (days_in_month_bounds ((month_index d + n) / 12)
                                   ((month_index d + n) mod 12 + 1)).
  lia.
Qed.

Section ReturnedForecast.

Context `{SK : Sklearn}.
Import CostForecaster.

Lemma returned_forecast_dates (self : t) (h : list Observation) (an : Analysis)
    (r : ForecastResult) (i : nat) (f : Forecast) :
  snd (generate_forecast self h an) = Some r ->
  forecasts r !! i = Some f ->
  fdate f = add_months (month_end (last_month h)) (Z.of_nat i + 1).
Proof.
  intros H Hi.
  destruct (generate_forecast_trace _ _ _ _ H)
    as (st & sc & m & ld & HL & _ & _ & Hld & _ & Hfs & _ & _ & Hf & _ & _).
  assert (Hh : h <> []).
  { apply prepare_data_nonempty. intros E. rewrite E in HL. cbn in HL. lia. }
  rewrite (prepare_data_last h Hh) in Hld. injection Hld as <-.
  assert (Hd : (fdate <$> forecasts r) !! i = Some (fdate f))
    by (rewrite list_lookup_fmap, Hi; reflexivity).
  rewrite Hf, apply_seasonal_adjustments_fdate, Hfs in Hd.
  rewrite <- list_fmap_compose, list_lookup_fmap in Hd.
  destruct (seq 0 forecast_periods !! i) as [k|] eqn:Ek; [|discriminate Hd].
  apply lookup_seq in Ek as [-> Hlt]. cbn in Hd. by injection Hd as <-.
Qed.

(** X6.  Every forecast of a returned result is dated with a day of the
    calendar: the month is the i-th after the last historical month, and
    the day is the length of the last historical month, clipped to the
    length of the forecast month (so it is not always a month end). *)
Theorem forecast_dates_valid (self : t) (h : list Observation) (an : Analysis)
    (r : ForecastResult) (i : nat) (f : Forecast) :
  snd (generate_forecast self h an) = Some r ->
  forecasts r !! i = Some f ->
  valid_date (fdate f) /\
  day (fdate f) =
    Z.min (days_in_month (year (month_end (last_month h)))
                         (month (month_end (last_month h))))
          (days_in_month (year (fdate f)) (month (fdate f))).
Proof.
  intros H Hi. rewrite (returned_forecast_dates _ _ _ _ _ _ H Hi).
  destruct (month_end_valid (last_month h)) as [[_ Hday] Hend].
  split; [apply add_months_valid; lia|].
  unfold add_months at 1. cbn [day]. rewrite Hend. reflexivity.
Qed.

Lemma ci_lookup_elem (level : Q) (ci : list (Q * list Interval))
    (ivs : list Interval) :
  ci_lookup level ci = Some ivs -> exists k, (k, ivs) ∈ ci.
Proof.
  induction ci as [|kv ci IH]; [discriminate|]. cbn.
  destruct (Qeq_bool (fst kv) level).
  - intros [= <-]. exists (fst kv). destruct kv. apply list_elem_of_here.
  - intros H. destruct (IH H) as [k Hk]. exists k. by apply list_elem_of_further.
Qed.

Lemma calculate_forecast_metrics_levels (fs : list Forecast)
    (ci : list (Q * list Interval)) (mt : Metrics) :
  _calculate_forecast_metrics fs ci = Some mt ->
  total_forecast mt = Qsum (map forecast fs) /\
  average_monthly_forecast mt = np_mean (map forecast fs) /\
  Forall2 (fun level lum => level_metrics (map forecast fs) ci level = Some lum)
          confidence_levels (uncertainty_metrics mt).
Proof.
  unfold _calculate_forecast_metrics. intros H.
  destruct (last (map forecast fs)) as [vl|]; [|discriminate H].
  cbn [mbind option_bind] in H.
  destruct (head (map forecast fs)) as [vf|]; [|discriminate H].
  cbn [mbind option_bind] in H.
  destruct (mapM (level_metrics (map forecast fs) ci) confidence_levels)
    as [um|] eqn:Eum; [|discriminate H].
  cbn [mbind option_bind] in H. injection H as <-.
  cbn [total_forecast average_monthly_forecast uncertainty_metrics].
  split; [reflexivity|]. split; [reflexivity|]. by apply mapM_Some_1.
Qed.

Lemma Qsum_all_zero (l : list Q) :
  Forall (fun x => (x == 0)%Q) l -> (Qsum l == 0)%Q.
Proof.
  induction 1 as [|x l Hx _ IH]; [reflexivity|].
  rewrite Qsum_cons, Hx, IH. ring.
Qed.

Lemma np_mean_all_zero (l : list Q) :
  Forall (fun x => (x == 0)%Q) l -> (np_mean l == 0)%Q.
Proof.
  intros H. unfold np_mean. rewrite (Qsum_all_zero l H).
  unfold Qdiv. ring.
Qed.

Lemma last_elem {A : Type} (l : list A) (x : A) : last l = Some x -> x ∈ l.
Proof.
  rewrite last_lookup. apply list_elem_of_lookup_2.
Qed.

Lemma head_elem {A : Type} (l : list A) (x : A) : head l = Some x -> x ∈ l.
Proof.
  destruct l as [|a l]; [discriminate|]. intros [= ->]. apply list_elem_of_here.
Qed.

Lemma np_gtb_zero_ratio (a b q : Q) :
  (a == 0)%Q -> (0 <= q)%Q -> np_gtb (np_div (Fin a) (Fin b)) q = false.
Proof.
  intros Ha Hq. cbn [np_div].
  destruct (Qeq_bool b 0) eqn:Eb.
  - assert (Es : Qsgn a = 0).
    { unfold Qsgn. unfold Qeq in Ha. cbn in Ha. rewrite Z.mul_1_r in Ha.
      by rewrite Ha. }
    rewrite Es. reflexivity.
  - cbn [np_gtb].
    assert (Hle : (a / b <= q)%Q).
    { unfold Qdiv. rewrite Ha, Qmult_0_l. exact Hq. }
    apply Qle_bool_iff in Hle. by rewrite Hle.
Qed.

(** What one level of the uncertainty metrics of a returned forecast
    holds: ranges that are all 0. *)
Lemma level_metrics_degenerate (vals : list Q) (fs : list Forecast)
    (ci : list (Q * list Interval)) (level : Q) (lum : Q * UncertaintyMetrics) :
  bands_degenerate fs ci ->
  level_metrics vals ci level = Some lum ->
  (average_range (snd lum) == 0)%Q /\
  range_trend (snd lum) = "decreasing"%string /\
  forall q, (0 <= q)%Q -> np_gtb (relative_uncertainty (snd lum)) q = false.
Proof.
  intros Hb H. unfold level_metrics in H.
  destruct (ci_lookup level ci) as [ivs|] eqn:Eci; [|discriminate H].
  cbn [mbind option_bind] in H.
  set (ranges := map (fun i => (upper i - lower i)%Q) ivs) in *.
  destruct (last ranges) as [rl|] eqn:El; [|discriminate H].
  cbn [mbind option_bind] in H.
  destruct (head ranges) as [rf|] eqn:Eh; [|discriminate H].
  cbn [mbind option_bind] in H. injection H as <-. cbn [snd].
  cbn [average_range range_trend relative_uncertainty].
  destruct (ci_lookup_elem _ _ _ Eci) as [k Hk].
  pose proof (bands_degenerate_lookup _ _ _ _ Hb Hk) as HF.
  assert (Hz : Forall (fun x => (x == 0)%Q) ranges).
  { unfold ranges. apply Forall_map.
    apply Forall_forall. intros iv Hiv.
    apply list_elem_of_lookup_1 in Hiv as [j Hj].
    destruct (Forall2_lookup_r _ _ _ _ _ HF Hj) as (f & _ & _ & Hlo & Hup).
    cbn. rewrite Hlo, Hup. ring. }
  pose proof (np_mean_all_zero _ Hz) as Hmean.
  split; [exact Hmean|]. split.
  - unfold trend_of, Qgtb.
    assert (Hrl : (rl == 0)%Q)
      by (apply (proj1 (Forall_forall _ _) Hz), last_elem, El).
    assert (Hrf : (rf == 0)%Q)
      by (apply (proj1 (Forall_forall _ _) Hz), head_elem, Eh).
    assert (Hle : (rl <= rf)%Q) by (rewrite Hrl, Hrf; apply Qle_refl).
    apply Qle_bool_iff in Hle. by rewrite Hle.
  - intros q Hq. by apply np_gtb_zero_ratio.
Qed.

Lemma returned_uncertainty_levels (self : t) (h : list Observation)
    (an : Analysis) (r : ForecastResult) :
  snd (generate_forecast self h an) = Some r ->
  exists mt,
    metrics r = Some mt /\
    forall level um, (level, um) ∈ uncertainty_metrics mt ->
      forall q, (0 <= q)%Q -> np_gtb (relative_uncertainty um) q = false.
Proof.
  intros H.
  destruct (returned_metrics_total _ _ _ _ H) as [mt Hmt].
  destruct (generate_forecast_trace _ _ _ _ H)
    as (st & sc & m & ld & _ & _ & _ & _ & _ & _ & _ & Hb & _ & _ & Hm).
  exists mt. split; [exact Hmt|]. rewrite Hm in Hmt.
  destruct (calculate_forecast_metrics_levels _ _ _ Hmt) as (_ & _ & HF2).
  intros level um Hin.
  apply list_elem_of_lookup_1 in Hin as [j Hj].
  destruct (Forall2_lookup_r _ _ _ _ _ HF2 Hj) as (lv & _ & Hlm).
  exact (proj2 (proj2 (level_metrics_degenerate _ _ _ lv (level, um) Hb Hlm))).
Qed.


End ReturnedForecast.

Lemma forecast_dates_valid_witness :
  exists r f,
    snd (CostForecaster.generate_forecast CostForecaster.init history5 no_seasonality)
      = Some r /\
    forecasts r !! 0%nat = Some f /\ valid_date (fdate f).
Proof.
  assert (E : exists r, snd (CostForecaster.generate_forecast CostForecaster.init
                               history5 no_seasonality) = Some r)
    by (vm_compute; eauto).
  destruct E as [r E].
  destruct (lookup_lt_is_Some_2 (forecasts r) 0%nat) as [f Hf].
  { rewrite (returned_forecasts_length _ _ _ _ E). vm_compute. lia. }
  exists r, f. split; [exact E|]. split; [exact Hf|].
  exact (proj1 (forecast_dates_valid _ _ _ _ _ _ E Hf)).
Defined.


Section TrendAndGrowth.

Context `{SK : Sklearn}.
Import CostForecaster.

Lemma trend_of_increasing (vl vf : Q) :
  trend_of vl vf = "increasing"%string <-> (vf < vl)%Q.
Proof.
  unfold trend_of, Qgtb. destruct (Qle_bool vl vf) eqn:E; cbn.
  - apply Qle_bool_iff in E. split; [discriminate|]. intros H. lra.
  - split; [|reflexivity]. intros _.
    destruct (Qlt_le_dec vf vl) as [H|H]; [exact H|].
    apply Qle_bool_iff in H. congruence.
Qed.

(** X8.  Trend label and growth of the forecast metrics.  With a non-zero first
    forecast the growth is the finite number (last - first) / first.  For a
    positive first forecast the label is "increasing" exactly when the
    growth is positive; for a negative one the two disagree: the label is
    "increasing" exactly when the growth is negative. *)
Theorem forecast_trend_and_growth (fs : list Forecast)
    (ci : list (Q * list Interval)) (mt : Metrics) (f l : Forecast) :
  _calculate_forecast_metrics fs ci = Some mt ->
  head fs = Some f -> last fs = Some l ->
  ~ (forecast f == 0)%Q ->
  exists g,
    forecast_growth mt = Fin g /\
    (g == (forecast l - forecast f) / forecast f)%Q /\
    ((0 < forecast f)%Q ->
       (forecast_trend mt = "increasing"%string <-> (0 < g)%Q)) /\
    ((forecast f < 0)%Q ->
       (forecast_trend mt = "increasing"%string <-> (g < 0)%Q)).
Proof.
  intros Hmt Hf Hl Hne.
  destruct (calculate_forecast_metrics_inv _ _ _ Hmt)
    as (vl & vf & Hlast & Hhead & Hgrowth & Htrend & _).
  assert (Evf : vf = forecast f).
  { destruct fs as [|f' fs']; [discriminate Hf|].
    cbn in Hf, Hhead. congruence. }
  assert (Evl : vl = forecast l).
  { change (map forecast fs) with (forecast <$> fs) in Hlast.
    rewrite fmap_last, Hl in Hlast. cbn in Hlast. congruence. }
  subst vf vl.
  exists ((forecast l - forecast f) / forecast f)%Q.
  split.
  { rewrite Hgrowth. cbn [np_div]. by rewrite (Qeq_bool_false _ _ Hne). }
  split; [reflexivity|].
  rewrite Htrend, trend_of_increasing.
  set (a := forecast f) in *. set (b := forecast l) in *.
  assert (Eg : ((b - a) / a * a == b - a)%Q) by (field; exact Hne).
  set (g := ((b - a) / a)%Q) in *.
  split; intros Ha; split; intros H; nra.
Qed.

End TrendAndGrowth.

Lemma forecast_trend_and_growth_witness :
  exists mt g,
    CostForecaster._calculate_forecast_metrics
      [mkForecast (mkDate 2024 1 31) (-(100))%Q; mkForecast (mkDate 2024 2 29) (-(50))%Q]
      (map (fun level => (level, [mkInterval (mkDate 2024 1 31) 0 0;
                                   mkInterval (mkDate 2024 2 29) 0 0]))
           CostForecaster.confidence_levels) = Some mt /\
    forecast_trend mt = "increasing"%string /\
    forecast_growth mt = Fin g /\ (g < 0)%Q.
Proof.
  set (fs := [mkForecast (mkDate 2024 1 31) (-(100))%Q;
              mkForecast (mkDate 2024 2 29) (-(50))%Q]).
  set (ci := map (fun level => (level, [mkInterval (mkDate 2024 1 31) 0 0;
                                        mkInterval (mkDate 2024 2 29) 0 0]))
                 CostForecaster.confidence_levels).
  assert (E : exists mt, CostForecaster._calculate_forecast_metrics fs ci = Some mt)
    by (vm_compute; eauto).
  destruct E as [mt E].
  destruct (forecast_trend_and_growth fs ci mt _ _ E eq_refl eq_refl)
    as (g & Hg & _ & _ & Hneg).
  { vm_compute. discriminate. }
  exists mt, g. split; [exact E|].
  assert (Ht : forecast_trend mt = "increasing"%string).
  { revert E. vm_compute. intros [= <-]. reflexivity. }
  split; [exact Ht|]. split; [exact Hg|].
  apply Hneg; [vm_compute; reflexivity|exact Ht].
Defined.

Section QuarterlyEntry.

Context `{SK : Sklearn}.
Import CostForecaster.

(** X9.  A [quarterly] entry in the seasonality stops the adjustment at the
    first forecast (evaluating [date.quarter] raises): every later forecast
    is returned unadjusted, whatever the monthly pattern holds, and the
    bands are those of the unadjusted forecast.  When moreover no month
    number is a key of the monthly pattern, as with the field-name keys
    that the analyzer produces, the whole forecast is returned
    unadjusted. *)
Theorem quarterly_entry_limits_adjustment (self : t) (h : list Observation)
    (an : Analysis) (r : ForecastResult) (sp : SeasonalPatterns) :
  snd (generate_forecast self h an) = Some r ->
  seasonality an = Some sp -> is_Some (quarterly sp) ->
  exists r0,
    snd (generate_forecast self h no_seasonality) = Some r0 /\
    confidence_intervals r = confidence_intervals r0 /\
    (forall i : nat, (1 <= i)%nat -> forecasts r !! i = forecasts r0 !! i) /\
    ((forall mp, monthly sp = Some mp -> forall z : Z, mp !! KInt z = None) ->
     forecasts r = forecasts r0).
Proof.
  intros H Hs Hq.
  destruct (generate_forecast_no_seasonality _ _ _ _ H)
    as (st & r0 & Hraw & Hr0 & Hf0 & Hci0).
  destruct (generate_forecast_trace _ _ _ _ H)
    as (st' & sc & m & ld & _ & _ & _ & _ & Hraw' & _ & _ & _ & Hf & Hci & _).
  rewrite Hraw in Hraw'. injection Hraw' as <-.
  exists r0. split; [exact Hr0|]. split; [congruence|].
  rewrite Hf, Hf0. unfold _apply_seasonal_adjustments. rewrite Hs.
  split.
  - intros i Hi. destruct (acc_forecasts st) as [|f fs]; [reflexivity|].
    rewrite (quarterly_entry_stops_adjustment sp f fs Hq).
    destruct i as [|i]; [lia|reflexivity].
  - intros Hkeys. destruct (monthly sp) as [mp|] eqn:Em.
    + apply (analyzer_patterns_adjust_nothing sp mp _ Em (Hkeys mp eq_refl) Hq).
    + destruct (acc_forecasts st) as [|f fs]; [reflexivity|].
      rewrite (quarterly_entry_stops_adjustment sp f fs Hq).
      unfold adjust_monthly. by rewrite Em.
Qed.

End QuarterlyEntry.

Lemma quarterly_entry_limits_adjustment_witness :
  exists r r0,
    snd (CostForecaster.generate_forecast CostForecaster.init history6 analyzer_shaped)
      = Some r /\
    snd (CostForecaster.generate_forecast CostForecaster.init history6 no_seasonality)
      = Some r0 /\
    forecasts r = forecasts r0.
Proof.
  assert (E : exists r, snd (CostForecaster.generate_forecast CostForecaster.init
                               history6 analyzer_shaped) = Some r)
    by (vm_compute; eauto).
  destruct E as [r E].
  destruct (quarterly_entry_limits_adjustment CostForecaster.init history6
              analyzer_shaped r analyzer_patterns E eq_refl
              (ex_intro _ _ eq_refl))
    as (r0 & H0 & _ & _ & Hall).
  exists r, r0. split; [exact E|]. split; [exact H0|].
  apply Hall. intros mp Hmp z.
  unfold analyzer_patterns in Hmp. cbn [monthly] in Hmp. injection Hmp as <-.
  unfold analyzer_monthly.
  rewrite !lookup_insert_ne by discriminate.
  apply lookup_singleton_ne. discriminate.
Defined.

(** * Further properties of the analyzer *)

(** ** Grouping by resource type *)

Lemma Qsum_app (l1 l2 : list Q) : (Qsum (l1 ++ l2) == Qsum l1 + Qsum l2)%Q.
Proof.
  induction l1 as [|x l1 IH].
  - cbn [app]. assert (E : (Qsum [] == 0)%Q) by reflexivity. rewrite E. ring.
  - cbn [app]. rewrite !Qsum_cons, IH. ring.
Qed.

Lemma key_lt_trans (a b c : string) : key_lt a b -> key_lt b c -> key_lt a c.
Proof.
  unfold key_lt. intros H1 H2.
  apply OrderedTypeEx.String_as_OT.cmp_lt in H1, H2.
  apply OrderedTypeEx.String_as_OT.cmp_lt.
  eapply OrderedTypeEx.String_as_OT.lt_trans; eassumption.
Qed.

Lemma key_lt_irrefl (a : string) : ~ key_lt a a.
Proof. unfold key_lt. rewrite string_compare_refl. discriminate. Qed.

Lemma key_gt_lt (a b : string) : String.compare a b = Gt -> key_lt b a.
Proof.
  unfold key_lt. intros H. rewrite String.compare_antisym, H. reflexivity.
Qed.

Section GroupBy.

Import CostForecastAnalyzer.

Lemma group_add_keys (k : string) (c : Q) (g : list (string * Q)) (x : string) :
  x ∈ map fst (group_add k c g) <-> x = k \/ x ∈ map fst g.
Proof.
  induction g as [|kv g IH]; cbn.
  - rewrite list_elem_of_singleton. split; [auto|intros [H|H]; [exact H|]].
    by apply elem_of_nil in H.
  - destruct (String.compare k (fst kv)) eqn:E; cbn.
    + apply String.compare_eq_iff in E. subst k.
      rewrite !elem_of_cons. tauto.
    + rewrite !elem_of_cons. tauto.
    + rewrite !elem_of_cons, IH. tauto.
Qed.

Lemma group_add_sorted (k : string) (c : Q) (g : list (string * Q)) :
  StronglySorted key_lt (map fst g) ->
  StronglySorted key_lt (map fst (group_add k c g)).
Proof.
  induction g as [|kv g IH]; intros Hs; cbn.
  - repeat constructor.
  - cbn in Hs. apply StronglySorted_inv in Hs as [Hs Hall].
    destruct (String.compare k (fst kv)) eqn:E; cbn.
    + constructor; assumption.
    + constructor; [constructor; assumption|].
      constructor; [exact E|].
      eapply Forall_impl; [exact Hall|].
      intros x Hx. by apply (key_lt_trans k (fst kv) x).
    + constructor; [by apply IH|].
      apply Forall_forall. intros x Hx.
      apply group_add_keys in Hx as [->|Hx]; [by apply key_gt_lt|].
      by apply (proj1 (Forall_forall _ _) Hall).
Qed.

Lemma sorted_head_not_in (k : string) (l : list string) :
  Forall (key_lt k) l -> k ∉ l.
Proof.
  intros Hall Hin. apply (key_lt_irrefl k).
  by apply (proj1 (Forall_forall _ _) Hall).
Qed.

Lemma elem_fst {A B : Type} (x : A) (y : B) (l : list (A * B)) :
  (x, y) ∈ l -> x ∈ map fst l.
Proof.
  intros H. apply list_elem_of_In. apply (in_map fst l (x, y)).
  by apply list_elem_of_In.
Qed.

(** Where an entry of the updated groups comes from. *)
Lemma group_add_elem (k : string) (c : Q) (g : list (string * Q))
    (rt : string) (v : Q) :
  StronglySorted key_lt (map fst g) ->
  (rt, v) ∈ group_add k c g ->
  (rt <> k /\ (rt, v) ∈ g) \/
  (rt = k /\ (k ∉ map fst g) /\ v = c) \/
  (rt = k /\ exists v0, (k, v0) ∈ g /\ v = (v0 + c)%Q).
Proof.
  induction g as [|kv g IH]; intros Hs Hin; cbn in Hin.
  - apply list_elem_of_singleton in Hin. injection Hin as -> ->.
    right. left. split; [reflexivity|]. split; [apply not_elem_of_nil|reflexivity].
  - cbn in Hs. apply StronglySorted_inv in Hs as [Hs Hall].
    destruct kv as [k' v']. cbn [fst snd] in *.
    destruct (String.compare k k') eqn:E.
    + apply String.compare_eq_iff in E. subst k'.
      apply elem_of_cons in Hin as [Hin|Hin].
      * injection Hin as -> ->. right. right. split; [reflexivity|].
        exists v'. split; [apply list_elem_of_here|reflexivity].
      * left. split; [|by apply list_elem_of_further].
        intros ->. apply (sorted_head_not_in k _ Hall). by apply (elem_fst k v).
    + assert (Hall' : Forall (key_lt k) (k' :: map fst g)).
      { constructor; [exact E|]. eapply Forall_impl; [exact Hall|].
        intros x Hx. by apply (key_lt_trans k k' x). }
      apply elem_of_cons in Hin as [Hin|Hin].
      * injection Hin as -> ->. right. left. split; [reflexivity|].
        split; [|reflexivity]. by apply sorted_head_not_in.
      * left. split; [|exact Hin]. intros ->.
        apply (sorted_head_not_in k _ Hall').
        by apply (elem_fst k v ((k', v') :: g)).
    + apply elem_of_cons in Hin as [Hin|Hin].
      * injection Hin as -> ->. left. split; [|apply list_elem_of_here].
        intros ->. rewrite string_compare_refl in E. discriminate.
      * destruct (IH Hs Hin) as [[Hne Hg]|[(-> & Hnot & ->)|(-> & v0 & Hg & ->)]].
        -- left. split; [exact Hne|by apply list_elem_of_further].
        -- right. left. split; [reflexivity|]. split; [|reflexivity].
           cbn. intros Hk. apply elem_of_cons in Hk as [->|Hk]; [|contradiction].
           rewrite string_compare_refl in E. discriminate.
        -- right. right. split; [reflexivity|]. exists v0.
           split; [by apply list_elem_of_further|reflexivity].
Qed.

Lemma groupby_snoc (l : list Observation) (o : Observation) :
  groupby_resource_type (l ++ [o]) =
  group_add (resource_type o) (cost o) (groupby_resource_type l).
Proof. unfold groupby_resource_type. by rewrite fold_left_app. Qed.

Lemma type_total_snoc (l : list Observation) (o : Observation) (rt : string) :
  (type_total (l ++ [o]) rt ==
   type_total l rt + (if decide (resource_type o = rt) then cost o else 0))%Q.
Proof.
  unfold type_total. rewrite filter_app, map_app, Qsum_app.
  rewrite filter_cons, filter_nil.
  destruct (decide (resource_type o = rt)); cbn [map]; [|reflexivity].
  assert (E : (Qsum [cost o] == cost o)%Q) by (unfold Qsum; cbn; ring).
  rewrite E. reflexivity.
Qed.

Lemma type_total_absent (l : list Observation) (rt : string) :
  (forall o, o ∈ l -> resource_type o <> rt) -> type_total l rt = 0%Q.
Proof.
  intros Hnone. unfold type_total.
  assert (E : filter (fun o => resource_type o = rt) l = []).
  { induction l as [|o l IH]; [reflexivity|].
    rewrite filter_cons_False by (apply Hnone, list_elem_of_here).
    apply IH. intros o' Ho'. apply Hnone. by apply list_elem_of_further. }
  rewrite E. reflexivity.
Qed.

Lemma groupby_invariants (df : list Observation) :
  let g := groupby_resource_type df in
  StronglySorted key_lt (map fst g) /\
  NoDup (map fst g) /\
  (forall rt, rt ∈ map fst g <-> exists o, o ∈ df /\ resource_type o = rt) /\
  (forall rt v, (rt, v) ∈ g -> (v == type_total df rt)%Q).
Proof.
  cbn zeta.
  assert (Inv : StronglySorted key_lt (map fst (groupby_resource_type df)) /\
                (forall rt, rt ∈ map fst (groupby_resource_type df) <->
                            exists o, o ∈ df /\ resource_type o = rt) /\
                (forall rt v, (rt, v) ∈ groupby_resource_type df ->
                              (v == type_total df rt)%Q)).
  { induction df as [|o l IH] using rev_ind.
    - split; [constructor|]. split.
      + intros rt. cbn. split.
        * intros H. by apply elem_of_nil in H.
        * intros (o & Ho & _). by apply elem_of_nil in Ho.
      + intros rt v H. by apply elem_of_nil in H.
    - destruct IH as (Hs & Hk & Hv). rewrite groupby_snoc.
      split; [by apply group_add_sorted|]. split.
      + intros rt. rewrite group_add_keys, Hk. split.
        * intros [->|(o' & Ho' & E)].
          -- exists o. split; [|reflexivity]. apply elem_of_app. right.
             apply list_elem_of_here.
          -- exists o'. split; [|exact E]. apply elem_of_app. by left.
        * intros (o' & Ho' & E). apply elem_of_app in Ho' as [Ho'|Ho'].
          -- right. by exists o'.
          -- apply list_elem_of_singleton in Ho'. subst o'. by left.
      + intros rt v Hin. rewrite type_total_snoc.
        destruct (group_add_elem _ _ _ _ _ Hs Hin)
          as [[Hne Hg]|[(-> & Hnot & ->)|(-> & v0 & Hg & ->)]].
        * rewrite decide_False by congruence. rewrite (Hv rt v Hg). ring.
        * rewrite decide_True by reflexivity.
          rewrite type_total_absent; [ring|].
          intros o' Ho' E. apply Hnot. apply Hk. by exists o'.
        * rewrite decide_True by reflexivity. rewrite (Hv _ v0 Hg). reflexivity. }
  destruct Inv as (Hs & Hk & Hv).
  split; [exact Hs|]. split; [|split; assumption].
  clear Hk Hv. induction Hs as [|k l Hs IH Hall]; constructor.
  - by apply sorted_head_not_in.
  - exact IH.
Qed.

Lemma group_add_total (k : string) (c : Q) (g : list (string * Q)) :
  (Qsum (map snd (group_add k c g)) == Qsum (map snd g) + c)%Q.
Proof.
  assert (E0 : (Qsum [] == 0)%Q) by reflexivity.
  induction g as [|kv g IH]; cbn [group_add].
  - cbn [map snd]. rewrite Qsum_cons, E0. ring.
  - destruct (String.compare k (fst kv)); cbn [map snd fst].
    + rewrite !Qsum_cons. ring.
    + rewrite !Qsum_cons. ring.
    + rewrite !Qsum_cons, IH. ring.
Qed.

Lemma groupby_total (df : list Observation) :
  (Qsum (map snd (groupby_resource_type df)) == Qsum (map cost df))%Q.
Proof.
  induction df as [|o l IH] using rev_ind; [reflexivity|].
  rewrite groupby_snoc, group_add_total, IH, map_app, Qsum_app.
  cbn [map].
  assert (E : (Qsum [cost o] == cost o)%Q) by (unfold Qsum; cbn; ring).
  rewrite E. reflexivity.
Qed.

(** X10.  [groupby('resource_type')['cost'].sum()]: one entry per resource type
    that occurs, in increasing order of the type names; the entry of a type
    is the sum of the costs of its observations, and the entries add up to
    the total cost of all observations. *)
Theorem groupby_resource_type_groups (df : list Observation) :
  let g := groupby_resource_type df in
  StronglySorted key_lt (map fst g) /\
  NoDup (map fst g) /\
  (forall rt, rt ∈ map fst g <-> exists o, o ∈ df /\ resource_type o = rt) /\
  (forall rt v, (rt, v) ∈ g -> (v == type_total df rt)%Q) /\
  (Qsum (map snd g) == Qsum (map cost df))%Q.
Proof.
  cbn zeta. destruct (groupby_invariants df) as (H1 & H2 & H3 & H4).
  repeat (split; [assumption|]). apply groupby_total.
Qed.

End GroupBy.

(** ** Percentages and top cost drivers *)

Section TopDrivers.

Import CostForecastAnalyzer.











End TopDrivers.



(** ** Monthly seasonality *)

Section MonthlyExtremes.

Import CostForecastAnalyzer.

Lemma fold_argmax (r : list (Z * Q)) (best : Z * Q) :
  let res := fold_left (fun best x => if Qle_bool (snd x) (snd best) then best else x)
                       r best in
  (res = best \/ res ∈ r) /\ (snd best <= snd res)%Q /\
  forall x, x ∈ r -> (snd x <= snd res)%Q.
Proof.
  revert best. induction r as [|x r IH]; intros best; cbn zeta.
  - cbn. split; [by left|]. split; [apply Qle_refl|].
    intros x Hx. by apply elem_of_nil in Hx.
  - cbn [fold_left].
    set (best' := if Qle_bool (snd x) (snd best) then best else x).
    assert (Hb : (snd best <= snd best')%Q /\ (snd x <= snd best')%Q /\
                 (best' = best \/ best' = x)).
    { unfold best'. destruct (Qle_bool (snd x) (snd best)) eqn:E.
      - apply Qle_bool_iff in E. split; [apply Qle_refl|]. split; [exact E|by left].
      - split; [|split; [apply Qle_refl|by right]].
        destruct (Qlt_le_dec (snd best) (snd x)) as [H|H]; [by apply Qlt_le_weak|].
        apply Qle_bool_iff in H. congruence. }
    destruct Hb as (Hb1 & Hb2 & Hb3).
    destruct (IH best') as (Hres & Hle & Hall). split; [|split].
    + destruct Hres as [->|Hres].
      * destruct Hb3 as [->| ->]; [by left|right; apply list_elem_of_here].
      * right. by apply list_elem_of_further.
    + by apply Qle_trans with (snd best').
    + intros y Hy. apply elem_of_cons in Hy as [->|Hy].
      * by apply Qle_trans with (snd best').
      * by apply Hall.
Qed.

Lemma fold_argmin (r : list (Z * Q)) (best : Z * Q) :
  let res := fold_left (fun best x => if Qle_bool (snd best) (snd x) then best else x)
                       r best in
  (res = best \/ res ∈ r) /\ (snd res <= snd best)%Q /\
  forall x, x ∈ r -> (snd res <= snd x)%Q.
Proof.
  revert best. induction r as [|x r IH]; intros best; cbn zeta.
  - cbn. split; [by left|]. split; [apply Qle_refl|].
    intros x Hx. by apply elem_of_nil in Hx.
  - cbn [fold_left].
    set (best' := if Qle_bool (snd best) (snd x) then best else x).
    assert (Hb : (snd best' <= snd best)%Q /\ (snd best' <= snd x)%Q /\
                 (best' = best \/ best' = x)).
    { unfold best'. destruct (Qle_bool (snd best) (snd x)) eqn:E.
      - apply Qle_bool_iff in E. split; [apply Qle_refl|]. split; [exact E|by left].
      - split; [|split; [apply Qle_refl|by right]].
        destruct (Qlt_le_dec (snd x) (snd best)) as [H|H]; [by apply Qlt_le_weak|].
        apply Qle_bool_iff in H. congruence. }
    destruct Hb as (Hb1 & Hb2 & Hb3).
    destruct (IH best') as (Hres & Hle & Hall). split; [|split].
    + destruct Hres as [->|Hres].
      * destruct Hb3 as [->| ->]; [by left|right; apply list_elem_of_here].
      * right. by apply list_elem_of_further.
    + by apply Qle_trans with (snd best').
    + intros y Hy. apply elem_of_cons in Hy as [->|Hy].
      * by apply Qle_trans with (snd best').
      * by apply Hall.
Qed.

Lemma groupby_month_mean_elem (md : MonthlyFrame) (m : Z) (v : Q) :
  (m, v) ∈ groupby_month_mean md ->
  1 <= m <= 12 /\
  v = np_mean (map snd (filter (fun r => month (fst r) = m) md)) /\
  exists row, row ∈ md /\ month (fst row) = m.
Proof.
  unfold groupby_month_mean. intros H.
  apply list_elem_of_omap in H as (k & Hk & E).
  apply elem_of_seqZ in Hk. unfold MonthlyFrame in *.
  assert (Hrows : forall row, row ∈ filter (fun r : Date * Q => month (fst r) = k) md ->
                              row ∈ md /\ month (fst row) = k).
  { intros row Hrow. apply list_elem_of_filter in Hrow as [Hm Hin]. by split. }
  destruct (filter (fun r : Date * Q => month (fst r) = k) md) as [|row rows] eqn:Ef;
    [discriminate E|].
  cbn [map] in E. injection E as <- <-.
  split; [lia|]. split; [rewrite Ef; reflexivity|].
  exists row. apply Hrows, list_elem_of_here.
Qed.

(** X13.  [_calculate_monthly_seasonality]: the highest- and lowest-cost months
    are calendar month numbers (1..12) that occur in the series; the
    average cost of the highest month is at least, and that of the lowest
    month at most, the average of every month that occurs. *)
Theorem monthly_seasonality_extremes (np_sqrt : Q -> Q) (md : MonthlyFrame)
    (s : MonthlySeasonality) :
  _calculate_monthly_seasonality np_sqrt md = Some s ->
  let averages := groupby_month_mean md in
  (exists v, (highest_cost_month s, v) ∈ averages /\
             forall kv, kv ∈ averages -> (snd kv <= v)%Q) /\
  (exists v, (lowest_cost_month s, v) ∈ averages /\
             forall kv, kv ∈ averages -> (v <= snd kv)%Q) /\
  1 <= highest_cost_month s <= 12 /\ 1 <= lowest_cost_month s <= 12 /\
  (exists row, row ∈ md /\ month (fst row) = highest_cost_month s) /\
  (exists row, row ∈ md /\ month (fst row) = lowest_cost_month s).
Proof.
  intros H. cbn zeta. unfold _calculate_monthly_seasonality in H.
  assert (Helem := groupby_month_mean_elem md).
  destruct (groupby_month_mean md) as [|kv r]; [discriminate H|].
  cbn [idxmax idxmin mbind option_bind] in H. injection H as <-.
  cbn [highest_cost_month lowest_cost_month].
  destruct (fold_argmax r kv) as (Hmax & Hmax1 & Hmax2).
  destruct (fold_argmin r kv) as (Hmin & Hmin1 & Hmin2).
  set (hi := fold_left (fun best x => if Qle_bool (snd x) (snd best) then best else x)
                       r kv) in *.
  set (lo := fold_left (fun best x => if Qle_bool (snd best) (snd x) then best else x)
                       r kv) in *.
  assert (Hhi : (fst hi, snd hi) ∈ kv :: r).
  { rewrite <- surjective_pairing. destruct Hmax as [->|Hmax];
      [apply list_elem_of_here|by apply list_elem_of_further]. }
  assert (Hlo : (fst lo, snd lo) ∈ kv :: r).
  { rewrite <- surjective_pairing. destruct Hmin as [->|Hmin];
      [apply list_elem_of_here|by apply list_elem_of_further]. }
  destruct (Helem _ _ Hhi) as (Hr1 & _ & Hrow1).
  destruct (Helem _ _ Hlo) as (Hr2 & _ & Hrow2).
  split.
  { exists (snd hi). split; [exact Hhi|].
    intros x Hx. apply elem_of_cons in Hx as [->|Hx]; [exact Hmax1|by apply Hmax2]. }
  split.
  { exists (snd lo). split; [exact Hlo|].
    intros x Hx. apply elem_of_cons in Hx as [->|Hx]; [exact Hmin1|by apply Hmin2]. }
  repeat (split; [assumption|]). assumption.
Qed.

End MonthlyExtremes.

Lemma monthly_seasonality_extremes_witness :
  exists s,
    CostForecastAnalyzer._calculate_monthly_seasonality (fun x => x)
      (_prepare_data history5) = Some s /\
    1 <= CostForecastAnalyzer.highest_cost_month s <= 12.
Proof.
  assert (E : exists s, CostForecastAnalyzer._calculate_monthly_seasonality (fun x => x)
                          (_prepare_data history5) = Some s)
    by (vm_compute; eauto).
  destruct E as [s E]. exists s. split; [exact E|].
  destruct (monthly_seasonality_extremes _ _ _ E) as (_ & _ & H & _). exact H.
Defined.

(** ** Month-over-month growth *)

Lemma not_nan_Fin (qs : list Q) : not_nan (Fin <$> qs) = Fin <$> qs.
Proof.
  unfold not_nan. induction qs as [|q qs IH]; [reflexivity|].
  cbn [fmap list_fmap]. rewrite filter_cons_True by reflexivity.
  f_equal. exact IH.
Qed.

Lemma Qsum_positive (qs : list Q) :
  qs <> [] -> Forall (fun q => (0 < q)%Q) qs -> (0 < Qsum qs)%Q.
Proof.
  intros Hne H. destruct H as [|q qs Hq Hqs]; [done|].
  rewrite Qsum_cons.
  assert (0 <= Qsum qs)%Q.
  { apply Qsum_nonneg. eapply Forall_impl; [exact Hqs|].
    intros x Hx. by apply Qlt_le_weak. }
  lra.
Qed.

Lemma inject_nat_positive (n : nat) :
  (0 < n)%nat -> (0 < inject_Z (Z.of_nat n))%Q.
Proof. intros H. rewrite <- (Zlt_Qlt 0). lia. Qed.

(** The mean of a growth series whose entries after the leading [nan] are
    finite. *)
Lemma pd_mean_finite_tail (qs : list Q) :
  qs <> [] ->
  pd_mean (NaN :: (Fin <$> qs)) =
    Fin (Qsum qs / inject_Z (Z.of_nat (length qs))).
Proof.
  intros Hne. unfold pd_mean.
  assert (Es : pd_sum (NaN :: (Fin <$> qs)) = Fin (Qsum qs)).
  { rewrite <- pd_sum_Fin. unfold pd_sum.
    by rewrite filter_cons_False by (cbn; congruence). }
  assert (En : not_nan (NaN :: (Fin <$> qs)) = Fin <$> qs).
  { rewrite <- (not_nan_Fin qs) at 2. unfold not_nan.
    by rewrite filter_cons_False by (cbn; congruence). }
  rewrite Es, En, length_fmap. cbn [np_div].
  assert (Hn : ~ (inject_Z (Z.of_nat (length qs)) == 0)%Q).
  { pose proof (inject_nat_positive (length qs)) as H.
    destruct qs; [done|]. specialize (H ltac:(cbn; lia)). lra. }
  by rewrite (Qeq_bool_false _ _ Hn).
Qed.

Lemma pct_from_increasing (prev : Q) (l : list Q) :
  (0 < prev)%Q -> increasing_from prev l ->
  exists qs, pct_from prev l = Fin <$> qs /\
             Forall (fun q => (0 < q)%Q) qs /\ length qs = length l.
Proof.
  revert prev. induction l as [|x l IH]; intros prev Hp Hinc.
  - exists []. by repeat split.
  - destruct Hinc as [Hlt Hinc].
    destruct (IH x ltac:(lra) Hinc) as (qs & E & Hpos & Hlen).
    exists ((x / prev + - (1))%Q :: qs). split; [|split].
    + cbn [pct_from fmap list_fmap]. rewrite E. f_equal.
      unfold np_sub. cbn [np_div].
      assert (Hne : ~ (prev == 0)%Q) by lra.
      by rewrite (Qeq_bool_false _ _ Hne).
    + constructor; [|exact Hpos].
      assert (1 < x / prev)%Q.
      { apply Qlt_shift_div_l; [exact Hp|lra]. }
      lra.
    + cbn. by rewrite Hlen.
Qed.

Lemma pct_change_step (l : list Q) (i : nat) (a b : Q) :
  l !! i = Some a -> l !! S i = Some b ->
  pct_change l !! S i = Some (np_sub (np_div (Fin b) (Fin a)) (Fin 1)).
Proof.
  destruct l as [|x l]; [discriminate|]. cbn [pct_change].
  change ((NaN :: pct_from x l) !! S i) with (pct_from x l !! i).
  change ((x :: l) !! S i) with (l !! i).
  revert x i. induction l as [|y l IH]; intros x i Ha Hb; [discriminate|].
  destruct i as [|i].
  - cbn in Ha, Hb. injection Ha as ->. injection Hb as ->. reflexivity.
  - cbn [pct_from]. change ((np_sub (np_div (Fin y) (Fin x)) (Fin 1)
                               :: pct_from y l) !! S i)
      with (pct_from y l !! i).
    apply IH; assumption.
Qed.

Lemma fold_np_add_infinite (l : list npfloat) (acc : npfloat) :
  is_finite acc = false -> is_finite (fold_left np_add l acc) = false.
Proof.
  revert acc. induction l as [|x l IH]; intros acc H; [exact H|].
  cbn [fold_left]. apply IH.
  destruct acc, x; cbn in *; congruence.
Qed.

Lemma fold_np_add_with_inf (l : list npfloat) (acc : npfloat) :
  PInf ∈ l -> is_finite (fold_left np_add l acc) = false.
Proof.
  revert acc. induction l as [|x l IH]; intros acc Hin;
    [by apply elem_of_nil in Hin|].
  cbn [fold_left]. apply elem_of_cons in Hin as [<-|Hin].
  - apply fold_np_add_infinite. by destruct acc.
  - by apply IH.
Qed.

Section GrowthFacts.

Variable np_sqrt : Q -> Q.
Import Growth.

(** X14.  A history that falls into one calendar month has no month-over-month
    change: average, standard deviation and last growth are [nan], and the
    growth trend is reported as "decreasing". *)
Theorem mom_growth_single_month (df : list Observation) :
  length (_prepare_data df) = 1%nat ->
  let growth := _calculate_mom_growth np_sqrt df in
  average_growth growth = NaN /\ growth_std_dev growth = NaN /\
  last_month_growth growth = NaN /\
  growth_trend growth = "decreasing"%string.
Proof.
  intros HL. unfold _calculate_mom_growth. cbn zeta.
  destruct (_prepare_data df) as [|[d c] [|row rows]]; try discriminate HL.
  cbn. repeat split.
Qed.

(** X15.  Positive monthly costs that increase strictly from month to month
    (two months at least) have a positive finite average growth, a positive
    last growth and the trend "increasing". *)
Theorem mom_growth_increasing (df : list Observation) :
  let monthly := frame_costs (_prepare_data df) in
  (2 <= length monthly)%nat -> positive_increasing monthly ->
  let growth := _calculate_mom_growth np_sqrt df in
  exists g g_last,
    average_growth growth = Fin g /\ (0 < g)%Q /\
    last_month_growth growth = Fin g_last /\ (0 < g_last)%Q /\
    growth_trend growth = "increasing"%string.
Proof.
  intros monthly HL Hinc. unfold _calculate_mom_growth. cbn zeta. fold monthly.
  destruct monthly as [|x l]; [cbn in HL; lia|].
  destruct Hinc as [Hx Hinc].
  destruct (pct_from_increasing x l Hx Hinc) as (qs & E & Hpos & Hlen).
  assert (Hne : qs <> []) by (intros ->; cbn in HL, Hlen; lia).
  cbn [pct_change average_growth last_month_growth growth_trend]. rewrite E.
  rewrite (pd_mean_finite_tail qs Hne).
  pose proof (Qsum_positive qs Hne Hpos) as Hs.
  assert (Hn : (0 < inject_Z (Z.of_nat (length qs)))%Q).
  { apply inject_nat_positive. destruct qs; [done|cbn; lia]. }
  assert (Hg : (0 < Qsum qs / inject_Z (Z.of_nat (length qs)))%Q).
  { apply Qlt_shift_div_l; [exact Hn|]. lra. }
  destruct (last qs) as [ql|] eqn:El;
    [|apply last_None in El; contradiction].
  exists (Qsum qs / inject_Z (Z.of_nat (length qs)))%Q, ql.
  split; [reflexivity|]. split; [exact Hg|].
  split.
  { rewrite last_cons, fmap_last, El. reflexivity. }
  split.
  { apply (proj1 (Forall_forall _ _) Hpos). by apply last_elem. }
  cbn [np_gtb].
  destruct (Qle_bool _ 0) eqn:Eb; [|reflexivity].
  apply Qle_bool_iff in Eb. lra.
Qed.

(** X16.  A month without cost followed by a month with cost makes the growth of
    that month infinite, and the average growth of the whole series is then
    not a finite number. *)
Theorem mom_growth_after_zero_month (df : list Observation) (i : nat) (a b : Q) :
  let monthly := frame_costs (_prepare_data df) in
  monthly !! i = Some a -> monthly !! S i = Some b ->
  (a == 0)%Q -> (0 < b)%Q ->
  pct_change monthly !! S i = Some PInf /\
  is_finite (average_growth (_calculate_mom_growth np_sqrt df)) = false.
Proof.
  intros monthly Ha Hb Hz Hpos.
  assert (Hstep : pct_change monthly !! S i = Some PInf).
  { rewrite (pct_change_step monthly i a b Ha Hb). f_equal.
    cbn [np_div]. apply Qeq_bool_iff in Hz. rewrite Hz.
    assert (Es : Qsgn b = 1).
    { unfold Qsgn. unfold Qlt in Hpos. cbn in Hpos. lia. }
    rewrite Es. reflexivity. }
  split; [exact Hstep|].
  unfold _calculate_mom_growth. cbn zeta. fold monthly.
  cbn [average_growth]. unfold pd_mean.
  assert (Hin : PInf ∈ not_nan (pct_change monthly)).
  { unfold not_nan. apply list_elem_of_filter. split; [reflexivity|].
    by apply list_elem_of_lookup_2 in Hstep. }
  assert (Hsum : is_finite (pd_sum (pct_change monthly)) = false).
  { unfold pd_sum. by apply fold_np_add_with_inf. }
  assert (Hn : (0 < inject_Z (Z.of_nat (length (not_nan (pct_change monthly)))))%Q).
  { apply inject_nat_positive.
    destruct (not_nan (pct_change monthly)); [by apply elem_of_nil in Hin|cbn; lia]. }
  set (n := inject_Z (Z.of_nat (length (not_nan (pct_change monthly))))) in *.
  clearbody n.
  assert (Hq : Qeq_bool n 0 = false) by (apply Qeq_bool_false; lra).
  assert (Hs : Qsgn n = 1).
  { unfold Qsgn. unfold Qlt in Hn. cbn in Hn. lia. }
  destruct (pd_sum (pct_change monthly)); try discriminate Hsum;
    cbn; rewrite ?Hq, ?Hs; reflexivity.
Qed.

End GrowthFacts.

Lemma mom_growth_single_month_witness :
  Growth.growth_trend (Growth._calculate_mom_growth (fun x => x) three_types)
    = "decreasing"%string.
Proof.
  destruct (mom_growth_single_month (fun x => x) three_types eq_refl)
    as (_ & _ & _ & H).
  exact H.
Defined.

Lemma mom_growth_increasing_witness :
  Growth.growth_trend (Growth._calculate_mom_growth (fun x => x) history5)
    = "increasing"%string.
Proof.
  destruct (mom_growth_increasing (fun x => x) history5)
    as (g & gl & _ & _ & _ & _ & H).
  - vm_compute. lia.
  - vm_compute. repeat split.
  - exact H.
Defined.

Lemma mom_growth_after_zero_month_witness :
  is_finite (Growth.average_growth
               (Growth._calculate_mom_growth (fun x => x) history_gap)) = false.
Proof.
  apply (mom_growth_after_zero_month (fun x => x) history_gap 1%nat 0%Q 120%Q).
  - reflexivity.
  - reflexivity.
  - reflexivity.
  - reflexivity.
Defined.

(** * Properties of the insights and recommendations *)

Section Insights.

Context `{SK : Sklearn}.
Import CostForecastOptimizer.

Lemma np_gtb_abs (x : npfloat) (q : Q) :
  (0 <= q)%Q -> np_gtb x q = true -> np_gtb (np_abs x) q = true.
Proof.
  intros Hq. destruct x as [a| | |]; cbn; try congruence.
  intros H. destruct (Qle_bool 0 a) eqn:E; [exact H|].
  destruct (Qle_bool a q) eqn:E'; [discriminate H|].
  exfalso.
  destruct (Qlt_le_dec a 0) as [Hlt|Hge].
  - assert (Hle : (a <= q)%Q) by lra. apply Qle_bool_iff in Hle. congruence.
  - apply Qle_bool_iff in Hge. congruence.
Qed.

Lemma any_uncertainty_above_false (q : Q) (um : list (Q * UncertaintyMetrics)) :
  (forall level u, (level, u) ∈ um -> np_gtb (relative_uncertainty u) q = false) ->
  any_uncertainty_above q um = false.
Proof.
  intros H. unfold any_uncertainty_above.
  induction um as [|[level u] um IH]; [reflexivity|].
  cbn. rewrite (H level u) by apply list_elem_of_here. cbn.
  apply IH. intros l' u' Hin. apply (H l' u'). by apply list_elem_of_further.
Qed.

Ltac concrete_member :=
  repeat first [apply list_elem_of_here | apply list_elem_of_further].

Ltac refute_member H :=
  repeat (apply elem_of_cons in H as [H|H]; [discriminate H|]);
  by apply elem_of_nil in H.

Ltac concrete_iff :=
  split; intros Hmem; first [solve [concrete_member] | solve [refute_member Hmem]].

(** X17.  When the trend and the metrics are present, insights and
    recommendations are listed in a fixed order (for the recommendations,
    growth comes before uncertainty), each kind at most once, and they go
    together: a trend, seasonality, concentration or uncertainty insight is
    there exactly when its recommendation is; a "future_planning"
    recommendation comes with a "growth" insight, but a growth insight for
    an expected decrease has no recommendation. *)
Theorem insights_match_recommendations (analysis : AnalysisView)
    (forecasts : ForecastResult) :
  is_Some (linear_trend analysis) -> is_Some (metrics forecasts) ->
  let ins := map itype (_generate_insights analysis forecasts) in
  let recs := map rtype (_generate_recommendations analysis forecasts) in
  sublist ins insight_order /\ sublist recs recommendation_order /\
  ("trend"%string ∈ ins <-> "cost_optimization"%string ∈ recs) /\
  ("pattern"%string ∈ ins <-> "resource_management"%string ∈ recs) /\
  ("concentration"%string ∈ ins <-> "cost_distribution"%string ∈ recs) /\
  ("uncertainty"%string ∈ ins <-> "risk_management"%string ∈ recs) /\
  ("future_planning"%string ∈ recs -> "growth"%string ∈ ins).
Proof.
  intros [lt Hlt] [mt Hmt].
  unfold _generate_insights, _generate_recommendations,
    insights_body, recommendations_body.
  rewrite Hlt, Hmt. cbn [mbind option_bind default].
  pose proof (np_gtb_abs (forecast_growth mt) (2 # 10) ltac:(lra)) as Habs.
  destruct (String.eqb (trend_type lt) "increasing");
    destruct (monthly analysis);
    destruct (np_gtb (CostForecastAnalyzer.cost_concentration (cost_drivers analysis))
                     (5 # 10));
    destruct (any_uncertainty_above (2 # 10) (uncertainty_metrics mt));
    destruct (np_gtb (forecast_growth mt) (2 # 10));
    try (rewrite (Habs eq_refl));
    try destruct (np_gtb (np_abs (forecast_growth mt)) (2 # 10));
    cbn [map app itype rtype cost_controls seasonal_optimization diversify_usage
         prepare_for_increase manage_uncertainty];
    (split; [unfold insight_order; repeat constructor|]);
    (split; [unfold recommendation_order; repeat constructor|]);
    (split; [concrete_iff|]); (split; [concrete_iff|]);
    (split; [concrete_iff|]); (split; [concrete_iff|]);
    intros Hmem; first [solve [concrete_member] | solve [refute_member Hmem]].
Qed.

(** X18.  A missing key drops everything: when the trend analysis failed (its
    dictionary is empty) or the forecast metrics are empty, the [KeyError]
    is swallowed and no insight and no recommendation is returned, whatever
    the other entries hold. *)
Theorem missing_key_drops_all (analysis : AnalysisView) (forecasts : ForecastResult) :
  linear_trend analysis = None \/ metrics forecasts = None ->
  _generate_insights analysis forecasts = [] /\
  _generate_recommendations analysis forecasts = [].
Proof.
  unfold _generate_insights, _generate_recommendations,
    insights_body, recommendations_body.
  intros [H|H].
  - rewrite H. by split.
  - rewrite H. destruct (linear_trend analysis); by split.
Qed.

Lemma severity_partition (l : list Insight) :
  Forall (fun i => severity i = "high"%string \/ severity i = "medium"%string) l ->
  (length (filter (fun i => severity i = "high"%string) l)
   + length (filter (fun i => severity i = "medium"%string) l) = length l)%nat.
Proof.
  induction 1 as [|i l Hi _ IH]; [reflexivity|].
  rewrite !filter_cons. destruct Hi as [Hi|Hi].
  - rewrite decide_True by exact Hi.
    rewrite decide_False by (rewrite Hi; discriminate). cbn. lia.
  - rewrite decide_False by (rewrite Hi; discriminate).
    rewrite decide_True by exact Hi. cbn. lia.
Qed.

Lemma insights_severities (analysis : AnalysisView) (forecasts : ForecastResult) :
  Forall (fun i => severity i = "high"%string \/ severity i = "medium"%string)
         (_generate_insights analysis forecasts).
Proof.
  unfold _generate_insights, insights_body.
  destruct (linear_trend analysis) as [lt|]; [|constructor].
  cbn [mbind option_bind].
  destruct (metrics forecasts) as [mt|]; [|constructor].
  cbn [mbind option_bind default].
  repeat apply Forall_app_2.
  - destruct (String.eqb (trend_type lt) "increasing"); [|constructor].
    constructor; [|constructor]. cbn.
    destruct (np_gtb (trend_strength lt) (1 # 10)); auto.
  - destruct (monthly analysis); [|constructor].
    constructor; [|constructor]. cbn. auto.
  - destruct (np_gtb _ (5 # 10)); [|constructor].
    constructor; [|constructor]. cbn. auto.
  - destruct (any_uncertainty_above _ _); [|constructor].
    constructor; [|constructor]. cbn. auto.
  - destruct (np_gtb (np_abs _) _); [|constructor].
    constructor; [|constructor]. cbn. auto.
Qed.

(** X19.  [_summarize_insights] on the insights that [_generate_insights]
    returns: every insight is counted once, as high or as medium severity,
    and [top_insights] lists the descriptions of the high ones. *)
Theorem insight_summary_counts (analysis : AnalysisView) (forecasts : ForecastResult) :
  let ins := _generate_insights analysis forecasts in
  let summary := _summarize_insights ins in
  (high_severity summary + medium_severity summary = length ins)%nat /\
  length (top_insights summary) = high_severity summary /\
  (length ins <= 5)%nat /\
  (forall c, c ∈ categories summary <-> exists i, i ∈ ins /\ category i = c).
Proof.
  cbn zeta. unfold _summarize_insights.
  cbn [high_severity medium_severity top_insights categories].
  split; [apply severity_partition, insights_severities|].
  split; [by rewrite length_map|].
  split.
  - unfold _generate_insights, insights_body.
    destruct (linear_trend analysis) as [lt|]; [|cbn; lia].
    cbn [mbind option_bind].
    destruct (metrics forecasts) as [mt|]; [|cbn; lia].
    cbn [mbind option_bind default].
    destruct (String.eqb (trend_type lt) "increasing");
      destruct (monthly analysis);
      destruct (np_gtb _ (5 # 10));
      destruct (any_uncertainty_above _ _);
      destruct (np_gtb (np_abs _) _); cbn; lia.
  - intros c. rewrite elem_of_list_to_set. split.
    + intros H. apply list_elem_of_In, in_map_iff in H as (i & E & Hi).
      exists i. split; [by apply list_elem_of_In|exact E].
    + intros (i & Hi & E). apply list_elem_of_In, in_map_iff.
      exists i. split; [exact E|by apply list_elem_of_In].
Qed.

(** X20.  For every forecast that [generate_forecast] returns, whatever the
    analysis: no "uncertainty" insight and no "risk_management"
    recommendation is produced, and the uncertainty summary is "low" (all
    ranges are 0, so no relative uncertainty exceeds 0.2 or 0.1). *)
Theorem uncertainty_never_reported (self : CostForecaster.t)
    (h : list Observation) (an : Analysis) (r : ForecastResult)
    (analysis : AnalysisView) :
  snd (CostForecaster.generate_forecast self h an) = Some r ->
  (forall i, i ∈ _generate_insights analysis r -> itype i <> "uncertainty"%string) /\
  (forall rec, rec ∈ _generate_recommendations analysis r ->
               rtype rec <> "risk_management"%string) /\
  exists mt, metrics r = Some mt /\
             overall_assessment (_summarize_uncertainty (uncertainty_metrics mt))
               = "low"%string.
Proof.
  intros H.
  destruct (returned_uncertainty_levels _ _ _ _ H) as (mt & Hmt & Hrel).
  assert (H2 : any_uncertainty_above (2 # 10) (uncertainty_metrics mt) = false).
  { apply any_uncertainty_above_false. intros level u Hin.
    apply (Hrel level u Hin). lra. }
  assert (H1 : any_uncertainty_above (1 # 10) (uncertainty_metrics mt) = false).
  { apply any_uncertainty_above_false. intros level u Hin.
    apply (Hrel level u Hin). lra. }
  split; [|split].
  - unfold _generate_insights, insights_body. rewrite Hmt.
    destruct (linear_trend analysis) as [lt|];
      [|intros i Hi; by apply elem_of_nil in Hi].
    cbn [mbind option_bind default]. rewrite H2.
    intros i Hi.
    repeat (apply elem_of_app in Hi as [Hi|Hi]).
    + destruct (String.eqb (trend_type lt) "increasing");
        [|by apply elem_of_nil in Hi].
      apply list_elem_of_singleton in Hi. subst i. discriminate.
    + destruct (monthly analysis); [|by apply elem_of_nil in Hi].
      apply list_elem_of_singleton in Hi. subst i. discriminate.
    + destruct (np_gtb _ (5 # 10)); [|by apply elem_of_nil in Hi].
      apply list_elem_of_singleton in Hi. subst i. discriminate.
    + by apply elem_of_nil in Hi.
    + destruct (np_gtb (np_abs _) _); [|by apply elem_of_nil in Hi].
      apply list_elem_of_singleton in Hi. subst i. discriminate.
  - unfold _generate_recommendations, recommendations_body. rewrite Hmt.
    destruct (linear_trend analysis) as [lt|];
      [|intros i Hi; by apply elem_of_nil in Hi].
    cbn [mbind option_bind default]. rewrite H2.
    intros i Hi.
    repeat (apply elem_of_app in Hi as [Hi|Hi]).
    + destruct (String.eqb (trend_type lt) "increasing");
        [|by apply elem_of_nil in Hi].
      apply list_elem_of_singleton in Hi. subst i. discriminate.
    + destruct (monthly analysis); [|by apply elem_of_nil in Hi].
      apply list_elem_of_singleton in Hi. subst i. discriminate.
    + destruct (np_gtb _ (5 # 10)); [|by apply elem_of_nil in Hi].
      apply list_elem_of_singleton in Hi. subst i. discriminate.
    + destruct (np_gtb _ (2 # 10)); [|by apply elem_of_nil in Hi].
      apply list_elem_of_singleton in Hi. subst i. discriminate.
    + by apply elem_of_nil in Hi.
  - exists mt. split; [exact Hmt|].
    unfold _summarize_uncertainty. cbn [overall_assessment].
    by rewrite H2, H1.
Qed.

End Insights.

Lemma insights_match_recommendations_witness :
  exists r,
    snd (CostForecaster.generate_forecast CostForecaster.init history5 no_seasonality)
      = Some r /\
    sublist (map CostForecastOptimizer.itype
               (CostForecastOptimizer._generate_insights sample_view r))
            insight_order.
Proof.
  assert (E : exists r, snd (CostForecaster.generate_forecast CostForecaster.init
                               history5 no_seasonality) = Some r)
    by (vm_compute; eauto).
  destruct E as [r E]. exists r. split; [exact E|].
  destruct (insights_match_recommendations sample_view r) as (H & _).
  - eexists. reflexivity.
  - exact (returned_metrics_total _ _ _ _ E).
  - exact H.
Defined.

Lemma missing_key_drops_all_witness :
  CostForecastOptimizer._generate_insights view_without_trend
    (mkForecastResult [] [] None) = [] /\
  CostForecastOptimizer._generate_recommendations view_without_trend
    (mkForecastResult [] [] None) = [].
Proof.
  apply (missing_key_drops_all view_without_trend (mkForecastResult [] [] None)).
  left. reflexivity.
Defined.

Lemma uncertainty_never_reported_witness :
  exists r mt,
    snd (CostForecaster.generate_forecast CostForecaster.init history5 no_seasonality)
      = Some r /\
    metrics r = Some mt /\
    CostForecastOptimizer.overall_assessment
      (CostForecastOptimizer._summarize_uncertainty (uncertainty_metrics mt))
      = "low"%string.
Proof.
  assert (E : exists r, snd (CostForecaster.generate_forecast CostForecaster.init
                               history5 no_seasonality) = Some r)
    by (vm_compute; eauto).
  destruct E as [r E].
  destruct (uncertainty_never_reported _ _ _ _ sample_view E)
    as (_ & _ & mt & Hmt & Hlow).
  exists r, mt. split; [exact E|]. split; [exact Hmt|exact Hlow].
Defined.
